(** * ipisp: the Team Cymru IP-to-ASN client, session and directory resolvers

    A shallow embedding of the two Go source files of the package:
    the DNS client ([dnsClient], file dnsclient.go) and the whois/netcat
    client ([whoisClient]).  Go's [(value, error)] results are kept as pairs,
    a run-time panic is an explicit outcome, and the functions of Go's
    standard library that the code calls are modelled next to it. *)

From Stdlib Require Import List String Ascii Strings.Byte NArith ZArith Bool Lia.
From Stdlib Require Import DecimalString DecimalN.
Import ListNotations.

Local Open Scope list_scope.
Local Open Scope string_scope.

(* ================================================================= *)
(** ** Outcomes of a Go call *)

(** A call either returns its results or panics (index out of range). *)
Inductive run (A : Type) : Type :=
| Done (a : A)
| Panic (reason : string).
Arguments Done {A} a.
Arguments Panic {A} reason.

Definition run_bind {A B} (m : run A) (k : A -> run B) : run B :=
  match m with
  | Done a => k a
  | Panic r => Panic r
  end.

Notation "x <- m ;; k" := (run_bind m (fun x => k))
  (at level 61, m at next level, right associativity).

(** Go errors.  [New] is [errors.New]; [Errorf1] and [Errorf2] are
    [fmt.Errorf] with one [%s] argument, and with a [%s] argument followed by
    an error; [NumError] is what [strconv.Atoi] returns; [TimeParseError] is
    what [time.Parse] returns; [Foreign] is an error that comes from outside
    the two files (the resolver of the platform, the net package, the country
    table). *)
Inductive error : Type :=
| New (msg : string)
| Errorf1 (format arg : string)
| Errorf2 (format arg : string) (cause : error)
| ErrorfLen (format : string) (n : nat)
| NumError (fn num : string) (out_of_range : bool)
| TimeParseError (layout value : string)
| Foreign (msg : string).

(** [s[i]] on a slice of bytes: a panic when [i] is out of range. *)
Definition index {A} (s : list A) (i : nat) : run A :=
  match nth_error s i with
  | Some x => Done x
  | None => Panic "index out of range"
  end.

(* ================================================================= *)
(** ** The functions of package strings/bytes that the code calls *)

Module GoStrings.

(** [strings.HasPrefix], [bytes.HasPrefix]. *)
Fixpoint HasPrefix (s p : string) : bool :=
  match p, s with
  | EmptyString, _ => true
  | String c p', String d s' => Ascii.eqb c d && HasPrefix s' p'
  | String _ _, EmptyString => false
  end.

Fixpoint mem (c : ascii) (cutset : string) : bool :=
  match cutset with
  | EmptyString => false
  | String d r => Ascii.eqb c d || mem c r
  end.

(** [bytes.TrimLeft s cutset]: drops every leading byte that occurs in
    [cutset].  The cut set of the code is ASCII, for which the rune-wise
    definition of Go and this byte-wise one agree. *)
Fixpoint TrimLeft (s cutset : string) : string :=
  match s with
  | EmptyString => EmptyString
  | String c r => if mem c cutset then TrimLeft r cutset else s
  end.

(** [strings.Split s sep] for a one-byte separator: always at least one
    field, one more field than there are separators. *)
Fixpoint Split (s : string) (sep : ascii) : list string :=
  match s with
  | EmptyString => [EmptyString]
  | String c r =>
      if Ascii.eqb c sep then EmptyString :: Split r sep
      else match Split r sep with
           | t :: ts => String c t :: ts
           | [] => [String c EmptyString]
           end
  end.

Definition bytes_ (l : list N) : string :=
  string_of_list_ascii (map ascii_of_N l).

(** The white space of [unicode.IsSpace], as the UTF-8 byte sequences that
    decode to it: the six ASCII characters, U+0085, U+00A0, U+1680,
    U+2000..U+200A, U+2028, U+2029, U+202F, U+205F, U+3000. *)
Definition whiteSpace : list string :=
  map bytes_
    ([[9]; [10]; [11]; [12]; [13]; [32];
      [194; 133]; [194; 160]; [225; 154; 128]]
     ++ map (fun k => [226; 128; k]) [128; 129; 130; 131; 132; 133; 134; 135; 136; 137; 138]
     ++ [[226; 128; 168]; [226; 128; 169]; [226; 128; 175];
         [226; 129; 159]; [227; 128; 128]])%N%list.

Fixpoint strip (s p : string) : option string :=
  match p, s with
  | EmptyString, _ => Some s
  | String c p', String d s' => if Ascii.eqb c d then strip s' p' else None
  | String _ _, EmptyString => None
  end.

Fixpoint stripAny (s : string) (ps : list string) : option string :=
  match ps with
  | [] => None
  | p :: ps' => match strip s p with
                | Some r => Some r
                | None => stripAny s ps'
                end
  end.

Fixpoint trimLeftSeqs (fuel : nat) (ps : list string) (s : string) : string :=
  match fuel with
  | O => s
  | S fuel' => match stripAny s ps with
               | Some r => trimLeftSeqs fuel' ps r
               | None => s
               end
  end.

Definition srev (s : string) : string :=
  string_of_list_ascii (rev (list_ascii_of_string s)).

(** [strings.TrimSpace], [bytes.TrimSpace]: leading and trailing white space
    removed. *)
Definition TrimSpace (s : string) : string :=
  let l := trimLeftSeqs (String.length s) whiteSpace s in
  srev (trimLeftSeqs (String.length l) (map srev whiteSpace) (srev l)).

End GoStrings.
Import GoStrings.

(* ================================================================= *)
(** ** strconv.Atoi, the [%d] verb and time.Parse *)

Module GoConv.

Definition digitVal (c : ascii) : option Z :=
  let n := Z.of_N (N_of_ascii c) in
  if (48 <=? n)%Z && (n <=? 57)%Z then Some (n - 48)%Z else None.

Fixpoint digits (s : string) (acc : Z) : option Z :=
  match s with
  | EmptyString => Some acc
  | String c r => match digitVal c with
                  | Some d => digits r (10 * acc + d)%Z
                  | None => None
                  end
  end.

Definition maxInt : Z := (2 ^ 63 - 1)%Z.
Definition minInt : Z := (- 2 ^ 63)%Z.

(** [strconv.Atoi] on a 64-bit platform: an optional sign and at least one
    decimal digit; a value outside [int] is a range error. *)
Definition Atoi (s : string) : Z * option error :=
  let neg := match s with String "-" _ => true | _ => false end in
  let body := match s with
              | String "+" r => r
              | String "-" r => r
              | _ => s
              end in
  match body with
  | EmptyString => (0%Z, Some (NumError "Atoi" s false))
  | _ => match digits body 0 with
         | None => (0%Z, Some (NumError "Atoi" s false))
         | Some n =>
             let v := if neg then (- n)%Z else n in
             if (v <? minInt)%Z then (minInt, Some (NumError "Atoi" s true))
             else if (maxInt <? v)%Z then (maxInt, Some (NumError "Atoi" s true))
             else (v, None)
         end
  end.

(** The verb [%d] on a byte. *)
Definition fmt_d (b : byte) : string :=
  NilZero.string_of_uint (N.to_uint (Byte.to_N b)).

(** A [time.Time] that [time.Parse "2006-01-02"] can return: a calendar
    date at midnight UTC.  The zero [time.Time] is 1 January of year 1. *)
Record Time : Type := Date { year : Z; month : Z; day : Z }.

Definition zeroTime : Time := Date 1 1 1.

Definition isLeap (y : Z) : bool :=
  ((y mod 4 =? 0) && (negb (y mod 100 =? 0) || (y mod 400 =? 0)))%Z.

Definition daysIn (m y : Z) : Z :=
  (if m =? 2 then (if isLeap y then 29 else 28)
   else if (m =? 4) || (m =? 6) || (m =? 9) || (m =? 11) then 30
   else 31)%Z.

(** The date that the layout "2006-01-02" reads in [value]: four digits, a
    dash, two digits, a dash, two digits and nothing more; the month in
    1..12 and the day within the month. *)
Definition parseYMD (value : string) : option Time :=
  match value with
  | String y1 (String y2 (String y3 (String y4 (String "-"
      (String m1 (String m2 (String "-" (String d1 (String d2 EmptyString))))))))) =>
      match digits (String y1 (String y2 (String y3 (String y4 EmptyString)))) 0,
            digits (String m1 (String m2 EmptyString)) 0,
            digits (String d1 (String d2 EmptyString)) 0 with
      | Some y, Some m, Some d =>
          if ((m <=? 0) || (12 <? m))%Z then None
          else if ((d <? 1) || (daysIn m y <? d))%Z then None
          else Some (Date y m d)
      | _, _, _ => None
      end
  | _ => None
  end.

(** [time.Parse("2006-01-02", value)].  On failure the zero time comes
    with the error. *)
Definition ParseDate (value : string) : Time * option error :=
  match parseYMD value with
  | Some t => (t, None)
  | None => (zeroTime, Some (TimeParseError "2006-01-02" value))
  end.

End GoConv.
Import GoConv.

(* ================================================================= *)
(** ** dnsclient.go: the reverse-name encoder *)

Definition net_IP : Type := list byte.

Definition IPv4len : nat := 4.
Definition IPv6len : nat := 16.

Definition hexDigit : string := "0123456789abcdef".

Definition isZeros (p : list byte) : bool :=
  forallb (fun b => Byte.eqb b x00) p.

(** [net.IP.To4]: a 4-byte slice is returned as it is, a 16-byte slice
    with the prefix [0:0:0:0:0:ffff] gives its last four bytes, anything else
    gives [nil]. *)
Definition To4 (ip : net_IP) : net_IP :=
  if Nat.eqb (List.length ip) IPv4len then ip
  else if Nat.eqb (List.length ip) IPv6len
          && isZeros (firstn 10 ip)
          && Byte.eqb (nth 10 ip x00) xff
          && Byte.eqb (nth 11 ip x00) xff
       then firstn 4 (skipn 12 ip)
       else [].

(** [hexDigit[v&0xf]]; the index is below 16, see [nibble_index_lt]. *)
Definition hexAt (n : N) : ascii :=
  match String.get (N.to_nat n) hexDigit with
  | Some c => c
  | None => "000"%char
  end.

(** [v := ((uint32(ip[i-2]) << 8) | uint32(ip[i-1])) >> uint(j*4)]. *)
Definition wordShift (hi lo : byte) (j : N) : N :=
  N.shiftr (N.lor (N.shiftl (Byte.to_N hi) 8 mod 2 ^ 32) (Byte.to_N lo)) (j * 4).

Definition nibble (hi lo : byte) (j : N) : ascii :=
  hexAt (N.land (wordShift hi lo j) 15).

(** The inner loop [for j := 0; j <= 3; j++], appending a digit and the
    separator to [b] each time. *)
Definition innerLoop (hi lo : byte) (b : string) : string :=
  fold_left (fun b j => b ++ String (nibble hi lo j) ".") [0; 1; 2; 3]%N b.

(** The outer loop [for i := 16; i >= 2; i -= 2]; [k] iterations are left
    and [i = 2 * k]. *)
Fixpoint outerLoop (k : nat) (ip : net_IP) (b : string) : run string :=
  match k with
  | O => Done b
  | S k' =>
      let i := 2 * k in
      hi <- index ip (i - 2) ;;
      lo <- index ip (i - 1) ;;
      outerLoop k' ip (innerLoop hi lo b)
  end.

Definition getLookupName (ip : net_IP) : run (string * option error) :=
  let p4 := To4 ip in
  if Nat.eqb (List.length p4) IPv4len then
    a <- index ip 15 ;;
    b <- index ip 14 ;;
    c <- index ip 13 ;;
    d <- index ip 12 ;;
    Done (fmt_d a ++ "." ++ fmt_d b ++ "." ++ fmt_d c ++ "." ++ fmt_d d
            ++ ".origin.asn.cymru.com", None)
  else if negb (Nat.eqb (List.length ip) IPv6len) then
    Done ("", Some (ErrorfLen "Could not parse IP. Invalid length (%d)" (List.length ip)))
  else
    b <- outerLoop 8 ip "" ;;
    Done (substring 0 63 b ++ ".origin6.asn.cymru.com", None).

(** Byte literals for examples. *)
Definition B (n : N) : byte :=
  match Byte.of_N n with
  | Some b => b
  | None => x00
  end.

Definition v4in6 (a b c d : N) : net_IP :=
  (repeat x00 10 ++ [xff; xff; B a; B b; B c; B d])%list.

(* ================================================================= *)
(** ** What the two files take from outside *)

(** The value types of the package ([Country], [Name]) and their
    constructors, [ASN.String], the parsers and printers of package net, the
    answers of the DNS and the growth policy of [append] are not part of the
    two files: everything below is stated for any choice of them.
    [NewCountryFromCode] returns a value together with its error, as in Go.
    [LookupTXT] is one snapshot of the zone: the answer depends on the name
    only.  [growslice c] is the capacity [append] gives a full slice of
    capacity [c]. *)
Class Externals : Type := {
  CountryT : Type;
  NameT : Type;
  IPNet : Type;
  zeroCountry : CountryT;
  zeroName : NameT;
  NewCountryFromCode : string -> CountryT * option error;
  NewName : string -> NameT;
  ASN_String : Z -> string;
  IP_String : net_IP -> string;
  ParseIP : string -> net_IP;
  ParseCIDR : string -> option IPNet * option error;
  LookupTXT : string -> list string * option error;
  growslice : nat -> nat
}.

Section Records.
Context {E : Externals}.

Record Response : Type := mkResponse {
  IP : net_IP;
  ASN : Z;
  Range : option IPNet;
  Country : CountryT;
  Registry : string;
  Allocated : Time;
  Name : NameT
}.

(** [Response{}]. *)
Definition zeroResponse : Response :=
  mkResponse [] 0%Z None zeroCountry "" zeroTime zeroName.

(** A slice of responses: its elements and its capacity. *)
Record slice : Type := mkSlice { elems : list Response; cap : nat }.

Definition len (s : slice) : nat := List.length (elems s).

(** [make([]Response, n, c)]. *)
Definition make (n c : nat) : slice := mkSlice (repeat zeroResponse n) c.

Definition append (s : slice) (x : Response) : slice :=
  if Nat.ltb (len s) (cap s)
  then mkSlice (elems s ++ [x])%list (cap s)
  else mkSlice (elems s ++ [x])%list (growslice (cap s)).

(** [values[k]] on a list whose length has been checked. *)
Definition field (values : list string) (k : nat) : string := nth k values "".

End Records.

(* ================================================================= *)
(** ** dnsclient.go: the directory resolver *)

Module dnsClient.
Section WithExternals.
Context {E : Externals}.

(** A computation that queries the DNS: its outcome and the names it has
    looked up, in order. *)
Definition Net (A : Type) : Type := (run A * list string)%type.

Definition ret {A} (a : A) : Net A := (Done a, []).

Definition bind {A B} (m : Net A) (k : A -> Net B) : Net B :=
  match m with
  | (Done a, l) => let (r, l') := k a in (r, (l ++ l')%list)
  | (Panic p, l) => (Panic p, l)
  end.

Definition lift {A} (r : run A) : Net A := (r, []).

Definition query (name : string) : Net (list string * option error) :=
  (Done (LookupTXT name), [name]).

Notation "x <-- m ;; k" := (bind m (fun x => k))
  (at level 61, m at next level, right associativity).

Definition LookupASN (asn : Z) : Net (option Response * option error) :=
  r <-- query (ASN_String asn ++ ".asn.cymru.com") ;;
  let (txts, err) := r in
  match err with
  | Some e => ret (None, Some e)
  | None =>
    match txts with
    | [] => ret (None, Some (New "No records found"))
    | txt :: _ =>
      let values := Split txt "|" in
      if negb (Nat.eqb (List.length values) 5) then
        ret (None, Some (Errorf1 "Received unrecognized response in AS lookup: %s" txt))
      else
        let values := map TrimSpace values in
        let (country, err) := NewCountryFromCode (field values 1) in
        match err with
        | Some e =>
            ret (None, Some (Errorf2 "Could not parse CountryCode (%s): %s" (field values 1) e))
        | None =>
          let allocated := if String.eqb (field values 3) "" then (zeroTime, None)
                           else ParseDate (field values 3) in
          match snd allocated with
          | Some e =>
              ret (None, Some (Errorf2 "Could not parse date (%s): %s" (field values 3) e))
          | None =>
              ret (Some (mkResponse [] asn None country (field values 2)
                           (fst allocated) (NewName (field values 4))), None)
          end
        end
    end
  end.

Definition LookupIP (ip : net_IP) : Net (option Response * option error) :=
  n <-- lift (getLookupName ip) ;;
  let lookupName := fst n in
  r <-- query lookupName ;;
  let (txts, err) := r in
  match err with
  | Some e => ret (None, Some e)
  | None =>
    match txts with
    | [] => ret (None, Some (New "No records found"))
    | txt :: _ =>
      let values := Split txt "|" in
      if negb (Nat.eqb (List.length values) 5) then
        ret (None, Some (Errorf1 "Received unrecognized response: %s" txt))
      else
        let values := map TrimSpace values in
        let (asn, err) := Atoi (field values 0) in
        match err with
        | Some e =>
            ret (None, Some (Errorf2 "Could not parse ASN (%s): %s" (field values 0) e))
        | None =>
          let (country, err) := NewCountryFromCode (field values 2) in
          match err with
          | Some e =>
              ret (None, Some (Errorf2 "Could not parse CountryCode (%s): %s" (field values 2) e))
          | None =>
            let (range, err) := ParseCIDR (field values 1) in
            match err with
            | Some e =>
                ret (None, Some (Errorf2 "Could not parse Range (%s): %s" (field values 1) e))
            | None =>
              let allocated := if String.eqb (field values 4) "" then (zeroTime, None)
                               else ParseDate (field values 4) in
              match snd allocated with
              | Some e =>
                  ret (None, Some (Errorf2 "Could not parse date (%s): %s" (field values 4) e))
              | None =>
                a <-- LookupASN asn ;;
                match a with
                | (Some asnResponse, None) =>
                    ret (Some (mkResponse ip asn range country (field values 3)
                                 (fst allocated) (Name asnResponse)), None)
                | (None, None) => (Panic "nil pointer dereference", [])
                | (_, Some e) =>
                    ret (None, Some (Errorf2 "Could not retrieve ASN (%s): %s" (ASN_String asn) e))
                end
              end
            end
          end
        end
    end
  end.

(** [*resp]. *)
Definition deref (p : option Response) : run Response :=
  match p with
  | Some r => Done r
  | None => Panic "nil pointer dereference"
  end.

(** The loop of [LookupIPs] and of [LookupASNs] over the inputs still to be
    looked up, [ret] being the slice built so far. *)
Fixpoint lookupEach {A} (lookup : A -> Net (option Response * option error))
  (xs : list A) (ret_ : slice) : Net (list Response * option error) :=
  match xs with
  | [] => ret (elems ret_, None)
  | x :: xs' =>
      r <-- lookup x ;;
      let (resp, err) := r in
      match err with
      | Some e => ret (elems ret_, Some e)
      | None =>
          v <-- lift (deref resp) ;;
          lookupEach lookup xs' (append ret_ v)
      end
  end.

Definition LookupIPs (ips : list net_IP) : Net (list Response * option error) :=
  lookupEach LookupIP ips (make (List.length ips) (List.length ips)).

Definition LookupASNs (asns : list Z) : Net (list Response * option error) :=
  lookupEach LookupASN asns (make (List.length asns) (List.length asns)).

End WithExternals.
End dnsClient.

(* ================================================================= *)
(** ** The whois (netcat) client: the session resolver *)

Module whoisClient.
Section WithExternals.
Context {E : Externals}.

Definition ncEOL : string := String "013" (String "010" "").

Definition ErrUnexpectedTokens : error :=
  New "Unexpected tokens while reading Cymru response.".

Definition netcatIPTokensLength : nat := 7.
Definition netcatASNTokensLength : nat := 5.

(** The connection as the client sees it: what has been flushed to it, the
    outcomes of the calls of [Flush] still to come (none left: success), and
    the lines the scanner will still deliver before it reports the end of
    the input. *)
Record Conn : Type := mkConn {
  sent : list string;
  flushes : list (option error);
  incoming : list string
}.

(** [c.w.WriteString(q); c.w.Write(ncEOL); c.w.Flush()]. *)
Definition writeLine (q : string) (c : Conn) : option error * Conn :=
  match flushes c with
  | Some e :: fl => (Some e, mkConn (sent c) fl (incoming c))
  | None :: fl => (None, mkConn (sent c ++ [(q ++ ncEOL)%string])%list fl (incoming c))
  | [] => (None, mkConn (sent c ++ [(q ++ ncEOL)%string])%list [] (incoming c))
  end.

(** The first loop of a batch: one query line per input, each flushed. *)
Fixpoint writeAll (qs : list string) (c : Conn) : option error * Conn :=
  match qs with
  | [] => (None, c)
  | q :: qs' =>
      match writeLine q c with
      | (Some e, c') => (Some e, c')
      | (None, c') => writeAll qs' c'
      end
  end.

(** All the flushes of a batch of [n] queries succeed. *)
Definition flushed (n : nat) (c : Conn) : Prop :=
  Forall (fun o => o = None) (firstn n (flushes c)).

(** One turn of the reading loop of [LookupIPs], from the test of the error
    marker to the record that is appended: the error the batch returns with,
    or the record. *)
Definition LookupIPs_line (raw : string) : error + Response :=
  if HasPrefix raw "Error: " then
    inl (New (TrimSpace (TrimLeft raw "Error: ")))
  else
    let tokens := Split raw "|" in
    if negb (Nat.eqb (List.length tokens) netcatIPTokensLength) then
      inl ErrUnexpectedTokens
    else
      let tokens := map TrimSpace tokens in
      let (asn, err) := Atoi (field tokens 0) in
      match err with
      | Some e => inl e
      | None =>
        let (range, err) := ParseCIDR (field tokens 2) in
        match err with
        | Some e => inl e
        | None =>
            inr (mkResponse (ParseIP (field tokens 1)) asn range
                   (fst (NewCountryFromCode (field tokens 3)))
                   (field tokens 4)
                   (fst (ParseDate (field tokens 5)))
                   (NewName (field tokens 6)))
        end
      end.

(** One turn of the reading loop of [LookupASNs]. *)
Definition LookupASNs_line (raw : string) : error + Response :=
  if HasPrefix raw "Error: " then
    inl (New (TrimSpace (TrimLeft raw "Error: ")))
  else
    let tokens := Split raw "|" in
    if negb (Nat.eqb (List.length tokens) netcatASNTokensLength) then
      inl ErrUnexpectedTokens
    else
      let tokens := map TrimSpace tokens in
      let (asn, err) := Atoi (field tokens 0) in
      match err with
      | Some e => inl e
      | None =>
          inr (mkResponse [] asn None
                 (fst (NewCountryFromCode (field tokens 1)))
                 (field tokens 2)
                 (fst (ParseDate (field tokens 3)))
                 (NewName (field tokens 4)))
      end.

(** [for !finished && c.sc.Scan() { ... }] followed by [return resp, err]:
    the result and the lines left unread.  [err] is the named result, nil
    when the loop is entered and after every turn that appends. *)
Fixpoint readLoop (line : string -> error + Response) (lines : list string)
  (finished : bool) (resp : slice) (err : option error)
  : (list Response * option error) * list string :=
  if finished then ((elems resp, err), lines)
  else
    match lines with
    | [] => ((elems resp, err), [])
    | raw :: rest =>
        match line raw with
        | inl e => ((elems resp, Some e), rest)
        | inr re =>
            let resp := append resp re in
            readLoop line rest (Nat.eqb (len resp) (cap resp)) resp None
        end
    end.

Definition batch (line : string -> error + Response) (qs : list string) (c : Conn)
  : (list Response * option error) * Conn :=
  let resp := make 0 (List.length qs) in
  match writeAll qs c with
  | (Some e, c') => ((elems resp, Some e), c')
  | (None, c') =>
      let (r, rest) := readLoop line (incoming c') false resp None in
      (r, mkConn (sent c') (flushes c') rest)
  end.

Definition LookupIPs (ips : list net_IP) (c : Conn)
  : (list Response * option error) * Conn :=
  batch LookupIPs_line (map IP_String ips) c.

Definition LookupASNs (asns : list Z) (c : Conn)
  : (list Response * option error) * Conn :=
  batch LookupASNs_line (map ASN_String asns) c.

(** [LookupIP]: the guarded single-address proxy. *)
Definition LookupIP (ip : net_IP) (c : Conn)
  : run (option Response * option error) * Conn :=
  let (r, c') := LookupIPs [ip] c in
  let (resp, err) := r in
  if Nat.eqb (List.length resp) 0 then (Done (None, err), c')
  else (re <- index resp 0 ;; Done (Some re, err), c').

(** [LookupASN]: the single-ASN proxy, [return &resp[0], err]. *)
Definition LookupASN (asn : Z) (c : Conn)
  : run (option Response * option error) * Conn :=
  let (r, c') := LookupASNs [asn] c in
  let (resp, err) := r in
  (re <- index resp 0 ;; Done (Some re, err), c').

(** [c.w.Flush()] with [data] in the buffer of the writer. *)
Definition flush (data : string) (c : Conn) : option error * Conn :=
  match flushes c with
  | Some e :: fl => (Some e, mkConn (sent c) fl (incoming c))
  | None :: fl => (None, mkConn (sent c ++ [data])%list fl (incoming c))
  | [] => (None, mkConn (sent c ++ [data])%list [] (incoming c))
  end.

(** [client.sc.Err()] after the first call of [client.sc.Scan()], on a
    connection whose input is the lines [lines] and then ends.  [scanErr] is
    the error the scanner meets at that end, nil at end of file, which
    [Err] does not report; [partial] tells that the last of the lines has no
    line end, so that the scanner hands it out only once it has met the end
    of the input.  The scanner has met the end when the call returns if there
    was no line to read, or one line without its line end; when it finds the
    line end of the first line it returns before reading further (a read of
    a TCP connection returns bytes or an error, not both), and [Err] is
    nil. *)
Definition sc_Err (lines : list string) (partial : bool) (scanErr : option error)
  : option error :=
  match lines with
  | [] => scanErr
  | [_] => if partial then scanErr else None
  | _ :: _ :: _ => None
  end.

(** [NewWhoisClient].  [dial] is the outcome of [net.DialTimeout], a
    connection or an error; [partial] and [scanErr] tell how the input of
    the connection ends, as for [sc_Err].  The four writes of the handshake
    stay in the buffer until the flush.  [Scan] drops the first line if
    there is one, and [err = client.sc.Err()] is assigned whatever [Scan]
    returned.  The result is the connection of the client, if one was
    opened, and the error. *)
Definition NewWhoisClient (dial : Conn + error) (partial : bool) (scanErr : option error)
  : option Conn * option error :=
  match dial with
  | inr e => (None, Some e)
  | inl c =>
      match flush ("begin" ++ ncEOL ++ "verbose" ++ ncEOL) c with
      | (Some e, c') => (Some c', Some e)
      | (None, c') =>
          (Some (mkConn (sent c') (flushes c') (tl (incoming c'))),
           sc_Err (incoming c') partial scanErr)
      end
  end.

End WithExternals.
End whoisClient.

(* ================================================================= *)
(** ** A sample world *)

(** One concrete choice of what the files take from outside, used to run
    the resolvers on concrete inputs.  It is an IPv4 world: addresses are
    parsed and printed in dotted-quad form only, the country table knows a
    few codes, the zone holds Google's AS15169 with 8.8.4.4, the
    documentation AS64500 with 203.0.113.1, whose allocation dates are not
    calendar dates, and the documentation AS64501 with 198.51.100.1, whose
    allocation dates are empty. *)
Module Sample.

Definition itoa (z : Z) : string := NilZero.string_of_int (Z.to_int z).

Definition octet (s : string) : option N :=
  match s with
  | EmptyString => None
  | String "0" (String _ _) => None
  | _ => if Nat.ltb 3 (String.length s) then None
         else match digits s 0 with
              | Some v => if (v <=? 255)%Z then Some (Z.to_N v) else None
              | None => None
              end
  end.

Definition dottedQuad (s : string) : option (list byte) :=
  match map octet (Split s ".") with
  | [Some a; Some b; Some c; Some d] => Some [B a; B b; B c; B d]
  | _ => None
  end.

Definition parseIP (s : string) : net_IP :=
  match dottedQuad s with
  | Some q => (repeat x00 10 ++ [xff; xff] ++ q)%list
  | None => []
  end.

Definition printIP (ip : net_IP) : string :=
  match To4 ip with
  | [a; b; c; d] => fmt_d a ++ "." ++ fmt_d b ++ "." ++ fmt_d c ++ "." ++ fmt_d d
  | _ => "?"
  end.

(** The mask of a prefix of [n] bits, byte by byte. *)
Definition maskByte (n : N) (i : N) : N :=
  let bits := N.min 8 (n - 8 * i) in
  (255 - (2 ^ (8 - bits) - 1))%N.

Definition cidrMask (n : N) : list byte :=
  map (fun i => B (maskByte n i)) [0; 1; 2; 3]%N.

Definition maskIP (ip mask : list byte) : list byte :=
  map (fun p => B (N.land (Byte.to_N (fst p)) (Byte.to_N (snd p)))) (combine ip mask).

Definition parseCIDR (s : string) : option (list byte * list byte) * option error :=
  let bad := (None, Some (Foreign ("invalid CIDR address: " ++ s))) in
  match Split s "/" with
  | [addr; bits] =>
      match dottedQuad addr, bits with
      | Some q, String _ _ =>
          match digits bits 0 with
          | Some n => if (n <=? 32)%Z
                      then let m := cidrMask (Z.to_N n) in (Some (maskIP q m, m), None)
                      else bad
          | None => bad
          end
      | _, _ => bad
      end
  | _ => bad
  end.

Definition countryFromCode (code : string) : (string * string) * option error :=
  if String.eqb code "US" then (("US", "United States"), None)
  else if String.eqb code "DE" then (("DE", "Germany"), None)
  else if String.eqb code "NL" then (("NL", "Netherlands"), None)
  else (("", ""), Some (Foreign ("unknown country code: " ++ code))).

Definition lookupTXT (name : string) : list string * option error :=
  if String.eqb name "AS15169.asn.cymru.com"
  then (["15169 | US | arin | 2000-03-30 | GOOGLE, US"], None)
  else if String.eqb name "4.4.8.8.origin.asn.cymru.com"
  then (["15169 | 8.8.4.0/24 | US | arin | 1992-12-01"], None)
  else if String.eqb name "AS64500.asn.cymru.com"
  then (["64500 | US | arin | 1998-00-00 | EXAMPLE-AS"], None)
  else if String.eqb name "1.113.0.203.origin.asn.cymru.com"
  then (["64500 | 203.0.113.0/24 | US | arin | 1998-00-00"], None)
  else if String.eqb name "AS64501.asn.cymru.com"
  then (["64501 | DE | ripencc |  | EXAMPLE-NET"], None)
  else if String.eqb name "1.100.51.198.origin.asn.cymru.com"
  then (["64501 | 198.51.100.0/24 | DE | ripencc | "], None)
  else ([], Some (Foreign ("lookup " ++ name ++ ": no such host"))).

#[export] Instance world : Externals := {|
  CountryT := string * string;
  NameT := string;
  IPNet := list byte * list byte;
  zeroCountry := ("", "");
  zeroName := "";
  NewCountryFromCode := countryFromCode;
  NewName := fun s => s;
  ASN_String := fun asn => "AS" ++ itoa asn;
  IP_String := printIP;
  ParseIP := parseIP;
  ParseCIDR := parseCIDR;
  LookupTXT := lookupTXT;
  growslice := fun c => Nat.max 1 (2 * c)
|}.

Definition response : net_IP -> Z -> option (list byte * list byte) -> string * string
                      -> string -> Time -> string -> @Response world :=
  @mkResponse world.

(** Lines of the whois service in verbose mode. *)
Definition line_8_8_4_4 : string :=
  "15169   | 8.8.4.4          | 8.8.4.0/24          | US | arin     | 1992-12-01 | GOOGLE, US".

Definition line_8_8_8_8 : string :=
  "15169   | 8.8.8.8          | 8.8.8.0/24          | US | arin     | 1992-12-01 | GOOGLE, US".

Definition line_203_0_113_1 : string :=
  "64500   | 203.0.113.1      | 203.0.113.0/24      |    | other    |            | EXAMPLE-AS".

Definition line_AS15169 : string :=
  "15169   | US | arin     | 2000-03-30 | GOOGLE, US".

Definition line_AS64500 : string :=
  "64500   |    | other    |            | EXAMPLE-AS".

Definition rec_8_8_4_4 : @Response world :=
  response (v4in6 8 8 4 4) 15169 (Some ([B 8; B 8; B 4; B 0], [xff; xff; xff; x00]))
    ("US", "United States") "arin" (Date 1992 12 1) "GOOGLE, US".

Definition rec_8_8_8_8 : @Response world :=
  response (v4in6 8 8 8 8) 15169 (Some ([B 8; B 8; B 8; B 0], [xff; xff; xff; x00]))
    ("US", "United States") "arin" (Date 1992 12 1) "GOOGLE, US".

Definition rec_203_0_113_1 : @Response world :=
  response (v4in6 203 0 113 1) 64500 (Some ([B 203; B 0; B 113; B 0], [xff; xff; xff; x00]))
    ("", "") "other" zeroTime "EXAMPLE-AS".

Definition rec_AS15169 : @Response world :=
  response [] 15169 None ("US", "United States") "arin" (Date 2000 3 30) "GOOGLE, US".

Definition rec_AS64500 : @Response world :=
  response [] 64500 None ("", "") "other" zeroTime "EXAMPLE-AS".

Definition rec_AS64501 : @Response world :=
  response [] 64501 None ("DE", "Germany") "ripencc" zeroTime "EXAMPLE-NET".

(** A zone with answers that [LookupASN] rejects: no record at all, a
    record of four fields, a country code that the table does not know. *)
Definition oddTXT (name : string) : list string * option error :=
  if String.eqb name "AS64496.asn.cymru.com" then ([], None)
  else if String.eqb name "AS64497.asn.cymru.com"
  then (["64497 | US | arin | 2001-01-01"], None)
  else if String.eqb name "AS64498.asn.cymru.com"
  then (["64498 | ZZ | arin | 2001-01-01 | EXAMPLE-ZZ"], None)
  else ([], Some (Foreign ("lookup " ++ name ++ ": no such host"))).

Definition oddWorld : Externals := {|
  CountryT := string * string;
  NameT := string;
  IPNet := list byte * list byte;
  zeroCountry := ("", "");
  zeroName := "";
  NewCountryFromCode := countryFromCode;
  NewName := fun s => s;
  ASN_String := fun asn => "AS" ++ itoa asn;
  IP_String := printIP;
  ParseIP := parseIP;
  ParseCIDR := parseCIDR;
  LookupTXT := oddTXT;
  growslice := fun c => Nat.max 1 (2 * c)
|}.

(** A zone with answers that the directory lookups reject field by field:
    an asn that is no number, a country code that the table does not know, a
    range that is no CIDR range. *)
Definition strictTXT (name : string) : list string * option error :=
  if String.eqb name "1.2.0.192.origin.asn.cymru.com"
  then (["NA | 192.0.2.0/24 | US | arin | 2001-01-01"], None)
  else if String.eqb name "2.2.0.192.origin.asn.cymru.com"
  then (["64498 | 192.0.2.0/24 | ZZ | arin | 2001-01-01"], None)
  else if String.eqb name "3.2.0.192.origin.asn.cymru.com"
  then (["64498 | 192.0.2.0/33 | US | arin | 2001-01-01"], None)
  else if String.eqb name "AS64498.asn.cymru.com"
  then (["NA | ZZ | arin | 2001-01-01 | EXAMPLE-ZZ"], None)
  else if String.eqb name "AS64499.asn.cymru.com"
  then (["NA | US | arin |  | EXAMPLE-NA"], None)
  else ([], Some (Foreign ("lookup " ++ name ++ ": no such host"))).

Definition strictWorld : Externals := {|
  CountryT := string * string;
  NameT := string;
  IPNet := list byte * list byte;
  zeroCountry := ("", "");
  zeroName := "";
  NewCountryFromCode := countryFromCode;
  NewName := fun s => s;
  ASN_String := fun asn => "AS" ++ itoa asn;
  IP_String := printIP;
  ParseIP := parseIP;
  ParseCIDR := parseCIDR;
  LookupTXT := strictTXT;
  growslice := fun c => Nat.max 1 (2 * c)
|}.

(** Lines of the whois service that the reading loops reject: an asn that
    is no number in each mode, a range that is no CIDR range. *)
Definition line_bad_asn : string :=
  "NA      | 192.0.2.1        | 192.0.2.0/24        | ZZ | arin     | 2001-01-01 | EXAMPLE".

Definition line_bad_range : string :=
  "64498   | 192.0.2.3        | 192.0.2.0/33        | US | arin     | 2001-01-01 | EXAMPLE".

Definition line_AS_bad_asn : string :=
  "NA      | US | arin     | 2001-01-01 | EXAMPLE".

(** A fresh connection on which the service will send [lines] and then
    close. *)
Definition conn (lines : list string) : @whoisClient.Conn :=
  whoisClient.mkConn [] [] lines.

End Sample.

(* ================================================================= *)
(** ** The IPv6 name as the specification words it *)

(** The eight 16-bit words of a 16-byte address, first two bytes first. *)
Fixpoint words16 (ip : list byte) : list N :=
  match ip with
  | hi :: lo :: r => (256 * Byte.to_N hi + Byte.to_N lo)%N :: words16 r
  | _ => []
  end.

(** The four hex digits of a word, least-significant nibble first. *)
Definition nibblesLSF (w : N) : list ascii :=
  map (fun k => hexAt ((w / 16 ^ k) mod 16)%N) [0; 1; 2; 3]%N.

(** Characters separated by dots, no dot before the first or after the last. *)
Fixpoint dotted (l : list ascii) : string :=
  match l with
  | [] => ""
  | [c] => String c ""
  | c :: r => String c (String "." (dotted r))
  end.

(** Words from the last to the first, nibbles least-significant first,
    dot-separated, then the zone suffix. *)
Definition spec_v6name (ip : net_IP) : string :=
  dotted (flat_map nibblesLSF (rev (words16 ip))) ++ ".origin6.asn.cymru.com".

(* ================================================================= *)
(** ** The models on concrete inputs *)

Example Split_five :
  Split "15169 | US | arin | 2000-03-30 | GOOGLE, US" "|"
  = ["15169 "; " US "; " arin "; " 2000-03-30 "; " GOOGLE, US"].
Proof. reflexivity. Qed.

Example Split_empty : Split "" "|" = [""].
Proof. reflexivity. Qed.

Example TrimSpace_ex : TrimSpace "  no match  " = "no match".
Proof. reflexivity. Qed.

Example TrimLeft_eats_message : TrimLeft "Error: rate" "Error: " = "ate".
Proof. reflexivity. Qed.

Example Atoi_ok : Atoi "15169" = (15169%Z, None).
Proof. reflexivity. Qed.

Example Atoi_bad : Atoi "NA" = (0%Z, Some (NumError "Atoi" "NA" false)).
Proof. reflexivity. Qed.

Example Atoi_range : snd (Atoi "9223372036854775808") <> None.
Proof. discriminate. Qed.

Example ParseDate_ok : ParseDate "2000-03-30" = (Date 2000 3 30, None).
Proof. reflexivity. Qed.

Example ParseDate_empty : fst (ParseDate "") = zeroTime /\ snd (ParseDate "") <> None.
Proof. split; [reflexivity | discriminate]. Qed.

Example ParseDate_feb30 : snd (ParseDate "2001-02-30") <> None.
Proof. discriminate. Qed.

Example name_v4in6 :
  getLookupName (v4in6 192 0 2 1) = Done ("1.2.0.192.origin.asn.cymru.com", None).
Proof. reflexivity. Qed.

Example name_4byte : getLookupName [B 192; B 0; B 2; B 1] = Panic "index out of range".
Proof. reflexivity. Qed.

Example name_v6 :
  getLookupName (map B [32; 1; 13; 184; 0; 0; 0; 0; 0; 0; 0; 0; 0; 0; 0; 1]%N)
  = Done ("1.0.0.0.0.0.0.0.0.0.0.0.0.0.0.0.0.0.0.0.0.0.0.0.8.b.d.0.1.0.0.2.origin6.asn.cymru.com", None).
Proof. reflexivity. Qed.

Example sample_cidr :
  Sample.parseCIDR "8.8.4.0/24" = (Some ([B 8; B 8; B 4; B 0], [xff; xff; xff; x00]), None).
Proof. reflexivity. Qed.

Example sample_cidr_bad : snd (Sample.parseCIDR "NA") <> None.
Proof. discriminate. Qed.

Example sample_asn_string : @ASN_String Sample.world 15169 = "AS15169".
Proof. reflexivity. Qed.

Example sample_dns_LookupASN :
  dnsClient.LookupASN (E := Sample.world) 15169
  = (Done (Some (Sample.response [] 15169%Z None ("US", "United States") "arin"
                   (Date 2000 3 30) "GOOGLE, US"), None),
     ["AS15169.asn.cymru.com"]).
Proof. reflexivity. Qed.

Example sample_dns_LookupIP :
  dnsClient.LookupIP (E := Sample.world) (v4in6 8 8 4 4)
  = (Done (Some (Sample.response (v4in6 8 8 4 4) 15169%Z
                   (Some ([B 8; B 8; B 4; B 0], [xff; xff; xff; x00]))
                   ("US", "United States") "arin" (Date 1992 12 1) "GOOGLE, US"), None),
     ["4.4.8.8.origin.asn.cymru.com"; "AS15169.asn.cymru.com"]).
Proof. reflexivity. Qed.

(* ================================================================= *)
(** ** The reverse-name encoder *)

Lemma lor_low_byte (a b : N) : (b < 2 ^ 8)%N -> N.lor (a * 2 ^ 8) b = (a * 2 ^ 8 + b)%N.
Proof.
  intro Hb.
  assert (Hland : N.land (a * 2 ^ 8) b = 0%N).
  { apply N.bits_inj_0. intro n. rewrite N.land_spec.
    destruct (N.ltb_spec n 8) as [Hn | Hn].
    - rewrite N.mul_pow2_bits_low by exact Hn. reflexivity.
    - destruct (N.eq_dec b 0) as [-> | Hb0].
      + rewrite N.bits_0. apply andb_false_r.
      + rewrite (N.bits_above_log2 b n), andb_false_r; [reflexivity |].
        apply N.log2_lt_pow2; [lia |].
        apply N.lt_le_trans with (2 ^ 8)%N; [exact Hb |].
        apply N.pow_le_mono_r; lia. }
  rewrite (N.add_nocarry_lxor _ _ Hland).
  symmetry. apply N.lxor_lor. exact Hland.
Qed.

(** The digit the code appends for nibble [j] of the word [hi:lo] is the
    digit of [(256 hi + lo) / 16^j mod 16]. *)
Lemma nibble_arith (hi lo : byte) (j : N) :
  nibble hi lo j = hexAt (((256 * Byte.to_N hi + Byte.to_N lo) / 16 ^ j) mod 16)%N.
Proof.
  unfold nibble, wordShift.
  pose proof (Byte.to_N_bounded hi) as Hhi.
  pose proof (Byte.to_N_bounded lo) as Hlo.
  rewrite N.shiftl_mul_pow2.
  rewrite (N.mod_small (Byte.to_N hi * 2 ^ 8) (2 ^ 32)) by (change (2 ^ 8)%N with 256%N; change (2 ^ 32)%N with 4294967296%N; lia).
  rewrite lor_low_byte by (change (2 ^ 8)%N with 256%N; lia).
  rewrite N.shiftr_div_pow2.
  change 15%N with (N.ones 4). rewrite N.land_ones.
  change (2 ^ 4)%N with 16%N. change (2 ^ 8)%N with 256%N.
  replace (2 ^ (j * 4))%N with (16 ^ j)%N.
  - f_equal. f_equal. f_equal. lia.
  - change 16%N with (2 ^ 4)%N. rewrite <- N.pow_mul_r. f_equal. lia.
Qed.

Lemma nibble_index_lt (hi lo : byte) (j : N) : (N.land (wordShift hi lo j) 15 < 16)%N.
Proof.
  change 15%N with (N.ones 4). rewrite N.land_ones.
  apply N.mod_lt. discriminate.
Qed.

Lemma length16 {A} (l : list A) :
  List.length l = 16%nat ->
  exists a0 a1 a2 a3 a4 a5 a6 a7 a8 a9 a10 a11 a12 a13 a14 a15,
    l = [a0; a1; a2; a3; a4; a5; a6; a7; a8; a9; a10; a11; a12; a13; a14; a15].
Proof.
  intro H.
  do 16 (destruct l as [| ? l]; [discriminate H |]).
  destruct l; [| discriminate H].
  repeat eexists.
Qed.

(** On a 16-byte address that [To4] does not recognise the code takes the
    IPv6 branch and produces the name the specification describes. *)
Lemma getLookupName_v6 (ip : net_IP) :
  List.length ip = 16%nat -> To4 ip = [] ->
  getLookupName ip = Done (spec_v6name ip, None).
Proof.
  intros Hlen H4.
  unfold getLookupName. rewrite H4, Hlen. cbn [List.length Nat.eqb IPv4len IPv6len negb].
  destruct (length16 ip Hlen) as (a0 & a1 & a2 & a3 & a4 & a5 & a6 & a7 & a8 & a9
                                   & a10 & a11 & a12 & a13 & a14 & a15 & ->).
  unfold spec_v6name, nibblesLSF.
  cbn -[nibble hexAt N.div N.modulo N.pow N.mul N.add Byte.to_N].
  rewrite !nibble_arith.
  reflexivity.
Qed.

(** An IPv4 address in its 16-byte form gets the IPv4 name. *)
Lemma getLookupName_v4in6 (b1 b2 b3 b4 : byte) :
  getLookupName (repeat x00 10 ++ [xff; xff; b1; b2; b3; b4])%list
  = Done (fmt_d b4 ++ "." ++ fmt_d b3 ++ "." ++ fmt_d b2 ++ "." ++ fmt_d b1
            ++ ".origin.asn.cymru.com", None).
Proof. reflexivity. Qed.

(** C4, the code at a 4-byte address: [To4] accepts the slice and the
    branch then reads [ip[15]], which a 4-byte slice does not have; the call
    panics instead of producing [b4.b3.b2.b1.origin.asn.cymru.com]. *)
Theorem C4_four_byte_address_panics (b1 b2 b3 b4 : byte) :
  getLookupName [b1; b2; b3; b4] = Panic "index out of range".
Proof. reflexivity. Qed.

(** C9 as stated fails: the 16-byte address ::ffff:192.0.2.1 is encoded as
    an IPv4 name, not as eight words of hex nibbles. *)
Lemma C9_counterexample :
  List.length (v4in6 192 0 2 1) = 16%nat
  /\ getLookupName (v4in6 192 0 2 1) = Done ("1.2.0.192.origin.asn.cymru.com", None)
  /\ getLookupName (v4in6 192 0 2 1) <> Done (spec_v6name (v4in6 192 0 2 1), None).
Proof.
  split; [reflexivity | split; [reflexivity |]].
  vm_compute. discriminate.
Qed.

(** C9, amended: for every 16-byte address that is not IPv4-mapped ([To4]
    gives nil) the encoder emits the eight words from the last to the first,
    each as four hex nibbles least-significant first, dot-separated with no
    dot before the first nibble or between the last nibble and the suffix,
    followed by the v6 suffix; the all-zero address gives 32 dot-separated
    zeros and the suffix. *)
Theorem C9_v6_name :
  (forall ip : net_IP,
      List.length ip = 16%nat -> To4 ip = [] ->
      getLookupName ip = Done (spec_v6name ip, None))
  /\ getLookupName (repeat x00 16)
     = Done ("0.0.0.0.0.0.0.0.0.0.0.0.0.0.0.0.0.0.0.0.0.0.0.0.0.0.0.0.0.0.0.0.origin6.asn.cymru.com",
             None).
Proof.
  split; [exact getLookupName_v6 | reflexivity].
Qed.

Lemma C9_v6_name_witness :
  getLookupName (map B [32; 1; 13; 184; 0; 0; 0; 0; 0; 0; 0; 0; 0; 0; 0; 1]%N)
  = Done ("1.0.0.0.0.0.0.0.0.0.0.0.0.0.0.0.0.0.0.0.0.0.0.0.8.b.d.0.1.0.0.2.origin6.asn.cymru.com",
          None).
Proof.
  exact (proj1 C9_v6_name
           (map B [32; 1; 13; 184; 0; 0; 0; 0; 0; 0; 0; 0; 0; 0; 0; 1]%N)
           eq_refl eq_refl).
Defined.

(* ================================================================= *)
(** ** The session resolver: the reading loop *)

Section Session.
Context {E : Externals}.
Import whoisClient.

Lemma writeAll_flushed (qs : list string) (c : Conn) :
  flushed (List.length qs) c ->
  exists c', writeAll qs c = (None, c') /\ incoming c' = incoming c.
Proof.
  revert c. induction qs as [| q qs IH]; intros c Hf.
  - exists c. split; reflexivity.
  - unfold flushed in Hf. cbn [writeAll]. unfold writeLine.
    destruct (flushes c) as [| [e |] fl] eqn:Hfl.
    + destruct (IH (mkConn (sent c ++ [(q ++ ncEOL)%string]) [] (incoming c))) as (c' & Hw & Hi).
      { unfold flushed. cbn. rewrite firstn_nil. constructor. }
      exists c'. split; [exact Hw | exact Hi].
    + cbn in Hf. inversion Hf as [| ? ? Habs ?]. discriminate Habs.
    + destruct (IH (mkConn (sent c ++ [(q ++ ncEOL)%string]) fl (incoming c))) as (c' & Hw & Hi).
      { unfold flushed. cbn in *. inversion Hf; assumption. }
      exists c'. split; [exact Hw | exact Hi].
Qed.

(** When the lines run out before the slice is full, every line that
    parses has been appended and the error is nil. *)
Lemma readLoop_eof (line : string -> error + Response) :
  forall (lines : list string) (recs : list Response) (resp : slice),
    Forall2 (fun raw re => line raw = inr re) lines recs ->
    len resp + List.length lines < cap resp ->
    readLoop line lines false resp None = ((elems resp ++ recs)%list, None, []).
Proof.
  induction lines as [| raw rest IH]; intros recs resp HF Hlt.
  - inversion HF; subst. cbn. rewrite app_nil_r. reflexivity.
  - inversion HF as [| ? re ? recs' Hre HF']; subst.
    cbn [readLoop]. rewrite Hre.
    assert (Happ : append resp re = mkSlice (elems resp ++ [re])%list (cap resp)).
    { unfold append. cbn [List.length] in Hlt.
      destruct (Nat.ltb_spec (len resp) (cap resp)); [reflexivity | lia]. }
    rewrite Happ.
    assert (Hlen : len (mkSlice (elems resp ++ [re])%list (cap resp)) = S (len resp)).
    { unfold len. cbn. rewrite length_app. cbn. lia. }
    cbn [List.length] in Hlt.
    replace (Nat.eqb (len (mkSlice (elems resp ++ [re])%list (cap resp)))
                     (cap (mkSlice (elems resp ++ [re])%list (cap resp)))) with false.
    2:{ symmetry. apply Nat.eqb_neq. rewrite Hlen. cbn. lia. }
    rewrite (IH recs').
    + cbn [elems]. rewrite <- app_assoc. reflexivity.
    + exact HF'.
    + rewrite Hlen. cbn [cap]. lia.
Qed.

Lemma batch_eof (line : string -> error + Response) (qs : list string) (c : Conn)
  (recs : list Response) :
  flushed (List.length qs) c ->
  Forall2 (fun raw re => line raw = inr re) (incoming c) recs ->
  List.length (incoming c) < List.length qs ->
  fst (batch line qs c) = (recs, None).
Proof.
  intros Hf HF Hlt.
  destruct (writeAll_flushed qs c Hf) as (c' & Hw & Hi).
  unfold batch. rewrite Hw, Hi.
  rewrite (readLoop_eof line (incoming c) recs).
  - reflexivity.
  - exact HF.
  - unfold make, len. cbn. exact Hlt.
Qed.

(** One turn of the loop on a line that gives a record. *)
Lemma readLoop_record (line : string -> error + Response) (raw : string)
  (rest : list string) (resp : slice) (err : option error) (re : Response) :
  line raw = inr re ->
  readLoop line (raw :: rest) false resp err
  = readLoop line rest (Nat.eqb (len (append resp re)) (cap (append resp re)))
      (append resp re) None.
Proof. intro H. cbn [readLoop]. rewrite H. reflexivity. Qed.

(** One turn of the loop on a line that aborts. *)
Lemma readLoop_abort (line : string -> error + Response) (raw : string)
  (rest : list string) (resp : slice) (err : option error) (e : error) :
  line raw = inl e ->
  readLoop line (raw :: rest) false resp err = (elems resp, Some e, rest).
Proof. intro H. cbn [readLoop]. rewrite H. reflexivity. Qed.

End Session.

Section SessionLines.
Context {E : Externals}.
Import whoisClient.

(** The record of an address-mode line that passes the four tests of the
    loop: no error marker, seven fields, a numeric asn, a range in CIDR
    form.  Neither the country nor the date is tested. *)
Lemma LookupIPs_line_ok (raw : string) :
  let tokens := map TrimSpace (Split raw "|") in
  HasPrefix raw "Error: " = false ->
  List.length (Split raw "|") = 7 ->
  snd (Atoi (field tokens 0)) = None ->
  snd (ParseCIDR (field tokens 2)) = None ->
  LookupIPs_line raw
  = inr (mkResponse (ParseIP (field tokens 1)) (fst (Atoi (field tokens 0)))
           (fst (ParseCIDR (field tokens 2)))
           (fst (NewCountryFromCode (field tokens 3)))
           (field tokens 4)
           (fst (ParseDate (field tokens 5)))
           (NewName (field tokens 6))).
Proof.
  intros tokens Hp Hl Ha Hc. unfold LookupIPs_line.
  rewrite Hp, Hl. cbn [netcatIPTokensLength Nat.eqb negb]. fold tokens.
  destruct (Atoi (field tokens 0)) as [asn ea]. cbn in Ha. subst ea.
  destruct (ParseCIDR (field tokens 2)) as [rg ec]. cbn in Hc. subst ec.
  reflexivity.
Qed.

(** The same for an ASN-mode line: no error marker, five fields, a numeric
    asn. *)
Lemma LookupASNs_line_ok (raw : string) :
  let tokens := map TrimSpace (Split raw "|") in
  HasPrefix raw "Error: " = false ->
  List.length (Split raw "|") = 5 ->
  snd (Atoi (field tokens 0)) = None ->
  LookupASNs_line raw
  = inr (mkResponse [] (fst (Atoi (field tokens 0))) None
           (fst (NewCountryFromCode (field tokens 1)))
           (field tokens 2)
           (fst (ParseDate (field tokens 3)))
           (NewName (field tokens 4))).
Proof.
  intros tokens Hp Hl Ha. unfold LookupASNs_line.
  rewrite Hp, Hl. cbn [netcatASNTokensLength Nat.eqb negb]. fold tokens.
  destruct (Atoi (field tokens 0)) as [asn ea]. cbn in Ha. subst ea.
  reflexivity.
Qed.

(** The guarded proxy never panics. *)
Lemma whois_LookupIP_returns (ip : net_IP) (c : Conn) :
  exists r, fst (LookupIP ip c) = Done r.
Proof.
  unfold LookupIP.
  destruct (LookupIPs [ip] c) as [[resp err] c'].
  destruct resp as [| re resp']; cbn; eauto.
Qed.

(** The unguarded proxy panics whenever the batch brings no record. *)
Lemma whois_LookupASN_empty (asn : Z) (c : Conn) :
  fst (fst (LookupASNs [asn] c)) = [] ->
  fst (LookupASN asn c) = Panic "index out of range".
Proof.
  unfold LookupASN.
  destruct (LookupASNs [asn] c) as [[resp err] c']. cbn.
  intros ->. reflexivity.
Qed.

(** An address-mode line whose first field is no integer: the turn returns
    the error of [strconv.Atoi]. *)
Lemma LookupIPs_line_bad_asn (raw : string) (e : error) :
  let tokens := map TrimSpace (Split raw "|") in
  HasPrefix raw "Error: " = false ->
  List.length (Split raw "|") = 7 ->
  snd (Atoi (field tokens 0)) = Some e ->
  LookupIPs_line raw = inl e.
Proof.
  intros tokens Hp Hl Ha. unfold LookupIPs_line.
  rewrite Hp, Hl. cbn [netcatIPTokensLength Nat.eqb negb]. fold tokens.
  destruct (Atoi (field tokens 0)) as [asn ea]. cbn in Ha. subst ea.
  reflexivity.
Qed.

(** An address-mode line whose first field is an integer and whose third
    field is no CIDR range: the turn returns the error of [net.ParseCIDR]. *)
Lemma LookupIPs_line_bad_range (raw : string) (e : error) :
  let tokens := map TrimSpace (Split raw "|") in
  HasPrefix raw "Error: " = false ->
  List.length (Split raw "|") = 7 ->
  snd (Atoi (field tokens 0)) = None ->
  snd (ParseCIDR (field tokens 2)) = Some e ->
  LookupIPs_line raw = inl e.
Proof.
  intros tokens Hp Hl Ha Hc. unfold LookupIPs_line.
  rewrite Hp, Hl. cbn [netcatIPTokensLength Nat.eqb negb]. fold tokens.
  destruct (Atoi (field tokens 0)) as [asn ea]. cbn in Ha. subst ea.
  destruct (ParseCIDR (field tokens 2)) as [rg ec]. cbn in Hc. subst ec.
  reflexivity.
Qed.

(** An ASN-mode line whose first field is no integer. *)
Lemma LookupASNs_line_bad_asn (raw : string) (e : error) :
  let tokens := map TrimSpace (Split raw "|") in
  HasPrefix raw "Error: " = false ->
  List.length (Split raw "|") = 5 ->
  snd (Atoi (field tokens 0)) = Some e ->
  LookupASNs_line raw = inl e.
Proof.
  intros tokens Hp Hl Ha. unfold LookupASNs_line.
  rewrite Hp, Hl. cbn [netcatASNTokensLength Nat.eqb negb]. fold tokens.
  destruct (Atoi (field tokens 0)) as [asn ea]. cbn in Ha. subst ea.
  reflexivity.
Qed.

End SessionLines.

(** C5: when the scanner reaches the end of the input after K lines that
    all parse, K below the number N of inputs, and the queries were flushed,
    the batch returns exactly the K records of these lines, in order, and a
    nil error; for [LookupIPs] and for [LookupASNs]. *)
Theorem C5_eof_returns_parsed_records {E : Externals} :
  (forall (ips : list net_IP) (c : whoisClient.Conn) (recs : list Response),
      whoisClient.flushed (List.length ips) c ->
      Forall2 (fun raw re => whoisClient.LookupIPs_line raw = inr re)
              (whoisClient.incoming c) recs ->
      List.length (whoisClient.incoming c) < List.length ips ->
      fst (whoisClient.LookupIPs ips c) = (recs, None)
      /\ List.length recs = List.length (whoisClient.incoming c))
  /\ (forall (asns : list Z) (c : whoisClient.Conn) (recs : list Response),
      whoisClient.flushed (List.length asns) c ->
      Forall2 (fun raw re => whoisClient.LookupASNs_line raw = inr re)
              (whoisClient.incoming c) recs ->
      List.length (whoisClient.incoming c) < List.length asns ->
      fst (whoisClient.LookupASNs asns c) = (recs, None)
      /\ List.length recs = List.length (whoisClient.incoming c)).
Proof.
  split; intros xs c recs Hf HF Hlt.
  - split.
    + unfold whoisClient.LookupIPs. apply batch_eof; rewrite ?length_map; assumption.
    + symmetry. exact (Forall2_length HF).
  - split.
    + unfold whoisClient.LookupASNs. apply batch_eof; rewrite ?length_map; assumption.
    + symmetry. exact (Forall2_length HF).
Qed.

(** C10: a line whose country code the country table rejects still gives
    its record, with the country value the table returned next to its error,
    and the loop goes on with the next line; in address mode and in ASN
    mode. *)
Theorem C10_country_failure_keeps_reading {E : Externals} :
  (forall (raw : string) (rest : list string) (resp : slice) (err : option error)
          (e : error),
      let tokens := map TrimSpace (Split raw "|") in
      HasPrefix raw "Error: " = false ->
      List.length (Split raw "|") = 7 ->
      snd (Atoi (field tokens 0)) = None ->
      snd (ParseCIDR (field tokens 2)) = None ->
      snd (NewCountryFromCode (field tokens 3)) = Some e ->
      exists re : Response,
        whoisClient.LookupIPs_line raw = inr re
        /\ Country re = fst (NewCountryFromCode (field tokens 3))
        /\ whoisClient.readLoop whoisClient.LookupIPs_line (raw :: rest) false resp err
           = whoisClient.readLoop whoisClient.LookupIPs_line rest
               (Nat.eqb (len (append resp re)) (cap (append resp re)))
               (append resp re) None)
  /\ (forall (raw : string) (rest : list string) (resp : slice) (err : option error)
          (e : error),
      let tokens := map TrimSpace (Split raw "|") in
      HasPrefix raw "Error: " = false ->
      List.length (Split raw "|") = 5 ->
      snd (Atoi (field tokens 0)) = None ->
      snd (NewCountryFromCode (field tokens 1)) = Some e ->
      exists re : Response,
        whoisClient.LookupASNs_line raw = inr re
        /\ Country re = fst (NewCountryFromCode (field tokens 1))
        /\ whoisClient.readLoop whoisClient.LookupASNs_line (raw :: rest) false resp err
           = whoisClient.readLoop whoisClient.LookupASNs_line rest
               (Nat.eqb (len (append resp re)) (cap (append resp re)))
               (append resp re) None).
Proof.
  split.
  - intros raw rest resp err e tokens Hp Hl Ha Hc _.
    pose proof (LookupIPs_line_ok raw Hp Hl Ha Hc) as Hline.
    eexists. split; [exact Hline |]. split; [reflexivity |].
    apply readLoop_record. exact Hline.
  - intros raw rest resp err e tokens Hp Hl Ha _.
    pose proof (LookupASNs_line_ok raw Hp Hl Ha) as Hline.
    eexists. split; [exact Hline |]. split; [reflexivity |].
    apply readLoop_record. exact Hline.
Qed.

Lemma C5_eof_returns_parsed_records_witness :
  fst (whoisClient.LookupIPs (E := Sample.world)
         [v4in6 8 8 4 4; v4in6 8 8 8 8; v4in6 203 0 113 1]
         (Sample.conn [Sample.line_8_8_4_4; Sample.line_8_8_8_8]))
  = ([Sample.rec_8_8_4_4; Sample.rec_8_8_8_8], None)
  /\ List.length [Sample.rec_8_8_4_4; Sample.rec_8_8_8_8] = 2.
Proof.
  apply (proj1 (@C5_eof_returns_parsed_records Sample.world)
           [v4in6 8 8 4 4; v4in6 8 8 8 8; v4in6 203 0 113 1]
           (Sample.conn [Sample.line_8_8_4_4; Sample.line_8_8_8_8])
           [Sample.rec_8_8_4_4; Sample.rec_8_8_8_8]).
  - constructor.
  - constructor; [reflexivity |]. constructor; [reflexivity |]. constructor.
  - cbn. lia.
Defined.

Lemma C10_country_failure_keeps_reading_witness :
  exists re : @Response Sample.world,
    whoisClient.LookupIPs_line Sample.line_203_0_113_1 = inr re
    /\ Country re = ("", "")
    /\ whoisClient.readLoop whoisClient.LookupIPs_line
         [Sample.line_203_0_113_1; Sample.line_8_8_4_4] false (make 0 2) None
       = whoisClient.readLoop whoisClient.LookupIPs_line [Sample.line_8_8_4_4]
           (Nat.eqb (len (append (make 0 2) re)) (cap (append (make 0 2) re)))
           (append (make 0 2) re) None.
Proof.
  exact (proj1 (@C10_country_failure_keeps_reading Sample.world)
           Sample.line_203_0_113_1 [Sample.line_8_8_4_4] (make 0 2) None
           (Foreign "unknown country code: ")
           eq_refl eq_refl eq_refl eq_refl eq_refl).
Defined.

Example session_country_failure_batch :
  fst (whoisClient.LookupIPs (E := Sample.world) [v4in6 203 0 113 1; v4in6 8 8 4 4]
         (Sample.conn [Sample.line_203_0_113_1; Sample.line_8_8_4_4]))
  = ([Sample.rec_203_0_113_1; Sample.rec_8_8_4_4], None).
Proof. reflexivity. Qed.

Example session_sends_queries :
  whoisClient.sent (snd (whoisClient.LookupIPs (E := Sample.world) [v4in6 8 8 4 4]
                           (Sample.conn [Sample.line_8_8_4_4])))
  = ["8.8.4.4" ++ whoisClient.ncEOL].
Proof. reflexivity. Qed.

Example session_error_no_match :
  fst (whoisClient.LookupIPs (E := Sample.world) [v4in6 8 8 4 4; v4in6 8 8 8 8]
         (Sample.conn [Sample.line_8_8_4_4; "Error: no match"]))
  = ([Sample.rec_8_8_4_4], Some (New "no match")).
Proof. reflexivity. Qed.

Example session_flush_error :
  fst (whoisClient.LookupIPs (E := Sample.world) [v4in6 8 8 4 4]
         (whoisClient.mkConn [] [Some (Foreign "broken pipe")] [Sample.line_8_8_4_4]))
  = ([], Some (Foreign "broken pipe")).
Proof. reflexivity. Qed.

(** C1, the code where the batch brings no record: [LookupASN] indexes
    [resp[0]] without a test and panics, both when the service answers with
    an error line and when it closes the connection; [LookupIP], which tests
    the length first, returns the error of the batch. *)
Theorem C1_LookupASN_indexes_empty_result :
  fst (whoisClient.LookupASN (E := Sample.world) 15169
         (Sample.conn ["Error: no ASN or IP match on line 1."]))
  = Panic "index out of range"
  /\ fst (whoisClient.LookupASN (E := Sample.world) 15169 (Sample.conn []))
     = Panic "index out of range"
  /\ fst (whoisClient.LookupIP (E := Sample.world) (v4in6 8 8 4 4)
            (Sample.conn ["Error: no ASN or IP match on line 1."]))
     = Done (None, Some (New "no ASN or IP match on line 1."))
  /\ fst (whoisClient.LookupIP (E := Sample.world) (v4in6 8 8 4 4) (Sample.conn []))
     = Done (None, None).
Proof. repeat split. Qed.

(** C3, the code on an error line whose message starts with a letter of
    the marker: [TrimLeft] with the cut set "Error: " removes the marker and
    goes on removing [r] ([E], [o], [:] and the space as well), so the error
    of the batch is "ate limit exceeded" where the text after the marker is
    "rate limit exceeded".  The records read before the line are returned. *)
Theorem C3_error_message_loses_leading_letters :
  fst (whoisClient.LookupIPs (E := Sample.world) [v4in6 8 8 4 4; v4in6 8 8 8 8]
         (Sample.conn [Sample.line_8_8_4_4; "Error: rate limit exceeded"]))
  = ([Sample.rec_8_8_4_4], Some (New "ate limit exceeded"))
  /\ fst (whoisClient.LookupASNs (E := Sample.world) [15169%Z; 64500%Z]
            (Sample.conn [Sample.line_AS15169; "Error: rate limit exceeded"]))
     = ([Sample.rec_AS15169], Some (New "ate limit exceeded"))
  /\ strip "Error: rate limit exceeded" "Error: " = Some "rate limit exceeded".
Proof. repeat split. Qed.

(* ================================================================= *)
(** ** The directory resolver *)

Section Directory.
Context {E : Externals}.
Import dnsClient.

Lemma bind_done {A B} (a : A) (l : list string) (k : A -> Net B) :
  bind (Done a, l) k = (fst (k a), (l ++ snd (k a))%list).
Proof. unfold bind. destruct (k a). reflexivity. Qed.

(** What the loop of a batch builds when every lookup succeeds: the slice
    it started from, followed by the records of the lookups in order. *)
Lemma lookupEach_all_succeed {A} (lookup : A -> Net (option Response * option error)) :
  forall (xs : list A) (rs : list Response) (s : slice),
    Forall2 (fun x r => fst (lookup x) = Done (Some r, None)) xs rs ->
    fst (lookupEach lookup xs s) = Done ((elems s ++ rs)%list, None).
Proof.
  induction xs as [| x xs IH]; intros rs s HF.
  - inversion HF; subst. cbn. rewrite app_nil_r. reflexivity.
  - inversion HF as [| ? r ? rs' Hr HF']; subst.
    cbn [lookupEach].
    destruct (lookup x) as [o l]. cbn in Hr. subst o.
    rewrite bind_done. cbn [fst].
    unfold lift, deref. rewrite bind_done. cbn [fst].
    rewrite (IH rs' (append s r) HF').
    f_equal. f_equal.
    unfold append. destruct (Nat.ltb (len s) (cap s)); cbn; rewrite <- app_assoc; reflexivity.
Qed.

(** With [make([]Response, len(ips))] as the start, a batch of N
    successful lookups returns N zero records and then the N results. *)
Lemma dns_LookupIPs_all_succeed (ips : list net_IP) (rs : list Response) :
  Forall2 (fun ip r => fst (LookupIP ip) = Done (Some r, None)) ips rs ->
  fst (LookupIPs ips) = Done ((repeat zeroResponse (List.length ips) ++ rs)%list, None).
Proof. intro HF. unfold LookupIPs. now rewrite (lookupEach_all_succeed _ ips rs). Qed.

Lemma dns_LookupASNs_all_succeed (asns : list Z) (rs : list Response) :
  Forall2 (fun asn r => fst (LookupASN asn) = Done (Some r, None)) asns rs ->
  fst (LookupASNs asns) = Done ((repeat zeroResponse (List.length asns) ++ rs)%list, None).
Proof. intro HF. unfold LookupASNs. now rewrite (lookupEach_all_succeed _ asns rs). Qed.

(** The encoder rejects every length other than 4 and 16. *)
Lemma getLookupName_bad_length (ip : net_IP) :
  List.length ip <> 4 -> List.length ip <> 16 ->
  getLookupName ip
  = Done ("", Some (ErrorfLen "Could not parse IP. Invalid length (%d)" (List.length ip))).
Proof.
  intros H4 H16. unfold getLookupName, To4, IPv4len, IPv6len.
  destruct (Nat.eqb_spec (List.length ip) 4) as [? | _]; [contradiction |].
  destruct (Nat.eqb_spec (List.length ip) 16) as [? | _]; [contradiction |].
  reflexivity.
Qed.

(** [LookupIP] drops that error and looks the empty name up. *)
Lemma dns_LookupIP_bad_length_queries (ip : net_IP) :
  List.length ip <> 4 -> List.length ip <> 16 ->
  exists l, snd (LookupIP ip) = "" :: l.
Proof.
  intros H4 H16. unfold LookupIP.
  rewrite (getLookupName_bad_length ip H4 H16).
  unfold lift, query. rewrite !bind_done. cbn [fst snd app].
  eexists. reflexivity.
Qed.

End Directory.

(** C2, the code on one input: the slice starts with [len(asns)] zero
    records and the results are appended after them, so a batch of one
    successful lookup returns two records, the first of them the zero
    record. *)
Theorem C2_batch_keeps_zero_records :
  fst (dnsClient.LookupASNs (E := Sample.world) [15169%Z])
  = Done ([zeroResponse; Sample.rec_AS15169], None)
  /\ fst (dnsClient.LookupIPs (E := Sample.world) [v4in6 8 8 4 4])
     = Done ([zeroResponse; Sample.rec_8_8_4_4], None).
Proof. split; reflexivity. Qed.

(** C6, the code on a 5-byte address: [getLookupName] returns the length
    error, [LookupIP] overwrites it with the result of [net.LookupTXT] on the
    empty name it got, and what the caller sees is the answer of the DNS. *)
Theorem C6_length_error_is_dropped :
  getLookupName (map B [1; 2; 3; 4; 5]%N)
  = Done ("", Some (ErrorfLen "Could not parse IP. Invalid length (%d)" 5))
  /\ dnsClient.LookupIP (E := Sample.world) (map B [1; 2; 3; 4; 5]%N)
     = (Done (None, Some (Foreign "lookup : no such host")), [""]).
Proof. split; reflexivity. Qed.

(* ================================================================= *)
(** ** A line with the error marker has no numeric first field *)

Lemma string_of_list_ascii_app (l1 l2 : list ascii) :
  string_of_list_ascii (l1 ++ l2)%list
  = (string_of_list_ascii l1 ++ string_of_list_ascii l2)%string.
Proof. induction l1 as [| c l1 IH]; cbn; [reflexivity | now rewrite IH]. Qed.

Lemma list_ascii_of_string_app (s1 s2 : string) :
  list_ascii_of_string (s1 ++ s2)%string
  = (list_ascii_of_string s1 ++ list_ascii_of_string s2)%list.
Proof. induction s1 as [| c s1 IH]; cbn; [reflexivity | now rewrite IH]. Qed.

Lemma srev_cons (c : ascii) (t : string) : srev (String c t) = (srev t ++ String c "")%string.
Proof. unfold srev. cbn. now rewrite string_of_list_ascii_app. Qed.

Lemma srev_snoc (c : ascii) (x : string) : srev (x ++ String c "")%string = String c (srev x).
Proof.
  unfold srev. rewrite list_ascii_of_string_app, rev_app_distr. reflexivity.
Qed.

(** Stripping a sequence that has no [E] in it from a string that ends in
    [E] leaves a string that ends in [E]. *)
Lemma strip_keeps_last (p : string) :
  mem "E" p = false ->
  forall x r, strip (x ++ String "E" "")%string p = Some r ->
              exists x', r = (x' ++ String "E" "")%string.
Proof.
  induction p as [| c p IH]; intros Hp x r H.
  - destruct x as [| d x]; cbn in H; injection H as <-;
      [exists "" | exists (String d x)]; reflexivity.
  - cbn [mem] in Hp. apply orb_false_elim in Hp as [Hc Hp].
    destruct x as [| d x]; cbn [strip String.append] in H.
    + rewrite (Ascii.eqb_sym c "E"), Hc in H. discriminate H.
    + destruct (Ascii.eqb c d); [| discriminate H].
      exact (IH Hp x r H).
Qed.

Lemma stripAny_keeps_last (ps : list string) :
  forallb (fun p => negb (mem "E" p)) ps = true ->
  forall x r, stripAny (x ++ String "E" "")%string ps = Some r ->
              exists x', r = (x' ++ String "E" "")%string.
Proof.
  induction ps as [| p ps IH]; intros Hps x r H; [discriminate H |].
  cbn in Hps. apply andb_prop in Hps as [Hp Hps].
  cbn in H. destruct (strip (x ++ String "E" "") p) as [r' |] eqn:Hs.
  - injection H as <-. apply (strip_keeps_last p) with (x := x); [| exact Hs].
    now apply negb_true_iff.
  - exact (IH Hps x r H).
Qed.

Lemma trimLeftSeqs_keeps_last (ps : list string) :
  forallb (fun p => negb (mem "E" p)) ps = true ->
  forall fuel x, exists x',
      trimLeftSeqs fuel ps (x ++ String "E" "")%string = (x' ++ String "E" "")%string.
Proof.
  intros Hps. induction fuel as [| fuel IH]; intro x; cbn.
  - eexists; reflexivity.
  - destruct (stripAny (x ++ String "E" "") ps) as [r |] eqn:Hs.
    + destruct (stripAny_keeps_last ps Hps x r Hs) as [x' ->]. apply IH.
    + eexists; reflexivity.
Qed.

Lemma trimLeftSeqs_E (fuel : nat) (t : string) :
  trimLeftSeqs fuel whiteSpace (String "E" t) = String "E" t.
Proof. destruct fuel; reflexivity. Qed.

Lemma TrimSpace_E (t : string) : exists t', TrimSpace (String "E" t) = String "E" t'.
Proof.
  unfold TrimSpace. rewrite trimLeftSeqs_E. rewrite srev_cons.
  destruct (trimLeftSeqs_keeps_last (map srev whiteSpace) eq_refl
              (String.length (String "E" t)) (srev t)) as [x' ->].
  rewrite srev_snoc. eexists; reflexivity.
Qed.

Lemma Atoi_E (t : string) : snd (Atoi (String "E" t)) <> None.
Proof. cbn. discriminate. Qed.

Lemma Split_E (r : string) : exists t ts, Split (String "E" r) "|" = String "E" t :: ts.
Proof. cbn. destruct (Split r "|"); eauto. Qed.

Lemma marker_not_numeric (raw : string) :
  HasPrefix raw "Error: " = true ->
  snd (Atoi (field (map TrimSpace (Split raw "|")) 0)) <> None.
Proof.
  intro H. destruct raw as [| c r]; [discriminate H |].
  cbn [HasPrefix] in H. apply andb_prop in H as [Hc _].
  apply Ascii.eqb_eq in Hc. subst c.
  destruct (Split_E r) as (t & ts & ->). unfold field. cbn [map nth].
  destruct (TrimSpace_E t) as [t' ->]. apply Atoi_E.
Qed.

Lemma numeric_not_marker (raw : string) :
  snd (Atoi (field (map TrimSpace (Split raw "|")) 0)) = None ->
  HasPrefix raw "Error: " = false.
Proof.
  intro H. destruct (HasPrefix raw "Error: ") eqn:Hp; [| reflexivity].
  exfalso. exact (marker_not_numeric raw Hp H).
Qed.

Lemma ParseDate_error_zero (v : string) :
  snd (ParseDate v) <> None -> fst (ParseDate v) = zeroTime.
Proof. unfold ParseDate. destruct (parseYMD v); cbn; congruence. Qed.

(* ================================================================= *)
(** ** The directory resolver on one TXT record *)

Section DirectoryRecords.
Context {E : Externals}.
Import dnsClient.

Ltac step_country H :=
  match goal with
  | |- context [NewCountryFromCode ?v] =>
      destruct (NewCountryFromCode v) as [country ec]; cbn [fst snd] in H |- *; subst ec
  end.

(** [LookupASN] when the country resolves and the date is empty or a
    calendar date. *)
Lemma dns_LookupASN_record (asn : Z) (txt : string) (others : list string) :
  let values := map TrimSpace (Split txt "|") in
  LookupTXT (ASN_String asn ++ ".asn.cymru.com") = (txt :: others, None) ->
  List.length (Split txt "|") = 5 ->
  snd (NewCountryFromCode (field values 1)) = None ->
  field values 3 = "" \/ snd (ParseDate (field values 3)) = None ->
  LookupASN asn
  = (Done (Some (mkResponse [] asn None (fst (NewCountryFromCode (field values 1)))
                   (field values 2) (fst (ParseDate (field values 3)))
                   (NewName (field values 4))), None),
     [ASN_String asn ++ ".asn.cymru.com"]).
Proof.
  intros values HT Hl Hc Hd.
  unfold LookupASN, query. rewrite bind_done, HT, Hl.
  cbn [Nat.eqb negb]. change (map TrimSpace (Split txt "|")) with values.
  step_country Hc.
  destruct (String.eqb_spec (field values 3) "") as [He | Hne].
  - rewrite He. reflexivity.
  - destruct Hd as [Hd | Hd]; [contradiction |].
    destruct (ParseDate (field values 3)) as [t et]. cbn [fst snd] in Hd |- *. subst et.
    reflexivity.
Qed.

(** [LookupASN] when the country resolves and the date is neither empty
    nor a calendar date. *)
Lemma dns_LookupASN_bad_date (asn : Z) (txt : string) (others : list string) (e : error) :
  let values := map TrimSpace (Split txt "|") in
  LookupTXT (ASN_String asn ++ ".asn.cymru.com") = (txt :: others, None) ->
  List.length (Split txt "|") = 5 ->
  snd (NewCountryFromCode (field values 1)) = None ->
  field values 3 <> "" ->
  snd (ParseDate (field values 3)) = Some e ->
  LookupASN asn
  = (Done (None, Some (Errorf2 "Could not parse date (%s): %s" (field values 3) e)),
     [ASN_String asn ++ ".asn.cymru.com"]).
Proof.
  intros values HT Hl Hc Hne Hd.
  unfold LookupASN, query. rewrite bind_done, HT, Hl.
  cbn [Nat.eqb negb]. change (map TrimSpace (Split txt "|")) with values.
  step_country Hc.
  destruct (String.eqb_spec (field values 3) "") as [He | _]; [contradiction |].
  destruct (ParseDate (field values 3)) as [t et]. cbn [fst snd] in Hd |- *. subst et.
  reflexivity.
Qed.

(** [LookupIP] when the fields before the date are accepted, the date is
    empty and the chained [LookupASN] returns a record. *)
Lemma dns_LookupIP_empty_date (ip : net_IP) (name txt : string) (others : list string)
  (err : option error) (a : Response) (l : list string) :
  let values := map TrimSpace (Split txt "|") in
  getLookupName ip = Done (name, err) ->
  LookupTXT name = (txt :: others, None) ->
  List.length (Split txt "|") = 5 ->
  snd (Atoi (field values 0)) = None ->
  snd (NewCountryFromCode (field values 2)) = None ->
  snd (ParseCIDR (field values 1)) = None ->
  field values 4 = "" ->
  LookupASN (fst (Atoi (field values 0))) = (Done (Some a, None), l) ->
  LookupIP ip
  = (Done (Some (mkResponse ip (fst (Atoi (field values 0)))
                   (fst (ParseCIDR (field values 1)))
                   (fst (NewCountryFromCode (field values 2)))
                   (field values 3) zeroTime (Name a)), None),
     name :: l).
Proof.
  intros values HN HT Hl Ha Hc Hr Hd HA.
  unfold LookupIP, lift, query. rewrite HN, !bind_done. cbn [fst snd app].
  rewrite HT, Hl.
  cbn [Nat.eqb negb]. change (map TrimSpace (Split txt "|")) with values.
  destruct (Atoi (field values 0)) as [asn ea]. cbn [fst snd] in Ha, HA |- *. subst ea.
  step_country Hc.
  destruct (ParseCIDR (field values 1)) as [rg er]. cbn [fst snd] in Hr |- *. subst er.
  rewrite Hd. cbn [String.eqb fst snd]. rewrite HA, bind_done.
  cbn. rewrite app_nil_r. reflexivity.
Qed.

(** [LookupIP] when the fields before the date are accepted and the date is
    neither empty nor a calendar date. *)
Lemma dns_LookupIP_bad_date (ip : net_IP) (name txt : string) (others : list string)
  (err : option error) (e : error) :
  let values := map TrimSpace (Split txt "|") in
  getLookupName ip = Done (name, err) ->
  LookupTXT name = (txt :: others, None) ->
  List.length (Split txt "|") = 5 ->
  snd (Atoi (field values 0)) = None ->
  snd (NewCountryFromCode (field values 2)) = None ->
  snd (ParseCIDR (field values 1)) = None ->
  field values 4 <> "" ->
  snd (ParseDate (field values 4)) = Some e ->
  LookupIP ip
  = (Done (None, Some (Errorf2 "Could not parse date (%s): %s" (field values 4) e)),
     [name]).
Proof.
  intros values HN HT Hl Ha Hc Hr Hne Hd.
  unfold LookupIP, lift, query. rewrite HN, !bind_done. cbn [fst snd app].
  rewrite HT, Hl.
  cbn [Nat.eqb negb]. change (map TrimSpace (Split txt "|")) with values.
  destruct (Atoi (field values 0)) as [asn ea]. cbn [fst snd] in Ha |- *. subst ea.
  step_country Hc.
  destruct (ParseCIDR (field values 1)) as [rg er]. cbn [fst snd] in Hr |- *. subst er.
  destruct (String.eqb_spec (field values 4) "") as [He | _]; [contradiction |].
  destruct (ParseDate (field values 4)) as [t et]. cbn [fst snd] in Hd |- *. subst et.
  reflexivity.
Qed.

(** [LookupASN] when the country code does not resolve. *)
Lemma dns_LookupASN_bad_country (asn : Z) (txt : string) (others : list string) (e : error) :
  let values := map TrimSpace (Split txt "|") in
  LookupTXT (ASN_String asn ++ ".asn.cymru.com") = (txt :: others, None) ->
  List.length (Split txt "|") = 5 ->
  snd (NewCountryFromCode (field values 1)) = Some e ->
  LookupASN asn
  = (Done (None, Some (Errorf2 "Could not parse CountryCode (%s): %s" (field values 1) e)),
     [ASN_String asn ++ ".asn.cymru.com"]).
Proof.
  intros values HT Hl Hc.
  unfold LookupASN, query. rewrite bind_done, HT, Hl.
  cbn [Nat.eqb negb]. change (map TrimSpace (Split txt "|")) with values.
  step_country Hc. reflexivity.
Qed.

(** [LookupIP] when the asn field is no integer. *)
Lemma dns_LookupIP_bad_asn (ip : net_IP) (name txt : string) (others : list string)
  (err : option error) (e : error) :
  let values := map TrimSpace (Split txt "|") in
  getLookupName ip = Done (name, err) ->
  LookupTXT name = (txt :: others, None) ->
  List.length (Split txt "|") = 5 ->
  snd (Atoi (field values 0)) = Some e ->
  LookupIP ip
  = (Done (None, Some (Errorf2 "Could not parse ASN (%s): %s" (field values 0) e)), [name]).
Proof.
  intros values HN HT Hl Ha.
  unfold LookupIP, lift, query. rewrite HN, !bind_done. cbn [fst snd app].
  rewrite HT, Hl.
  cbn [Nat.eqb negb]. change (map TrimSpace (Split txt "|")) with values.
  destruct (Atoi (field values 0)) as [asn ea]. cbn [fst snd] in Ha |- *. subst ea.
  reflexivity.
Qed.

(** [LookupIP] when the asn field is an integer and the country code does
    not resolve. *)
Lemma dns_LookupIP_bad_country (ip : net_IP) (name txt : string) (others : list string)
  (err : option error) (e : error) :
  let values := map TrimSpace (Split txt "|") in
  getLookupName ip = Done (name, err) ->
  LookupTXT name = (txt :: others, None) ->
  List.length (Split txt "|") = 5 ->
  snd (Atoi (field values 0)) = None ->
  snd (NewCountryFromCode (field values 2)) = Some e ->
  LookupIP ip
  = (Done (None, Some (Errorf2 "Could not parse CountryCode (%s): %s" (field values 2) e)),
     [name]).
Proof.
  intros values HN HT Hl Ha Hc.
  unfold LookupIP, lift, query. rewrite HN, !bind_done. cbn [fst snd app].
  rewrite HT, Hl.
  cbn [Nat.eqb negb]. change (map TrimSpace (Split txt "|")) with values.
  destruct (Atoi (field values 0)) as [asn ea]. cbn [fst snd] in Ha |- *. subst ea.
  step_country Hc. reflexivity.
Qed.

(** [LookupIP] when the asn field is an integer, the country code resolves
    and the range field is no CIDR range. *)
Lemma dns_LookupIP_bad_range (ip : net_IP) (name txt : string) (others : list string)
  (err : option error) (e : error) :
  let values := map TrimSpace (Split txt "|") in
  getLookupName ip = Done (name, err) ->
  LookupTXT name = (txt :: others, None) ->
  List.length (Split txt "|") = 5 ->
  snd (Atoi (field values 0)) = None ->
  snd (NewCountryFromCode (field values 2)) = None ->
  snd (ParseCIDR (field values 1)) = Some e ->
  LookupIP ip
  = (Done (None, Some (Errorf2 "Could not parse Range (%s): %s" (field values 1) e)), [name]).
Proof.
  intros values HN HT Hl Ha Hc Hr.
  unfold LookupIP, lift, query. rewrite HN, !bind_done. cbn [fst snd app].
  rewrite HT, Hl.
  cbn [Nat.eqb negb]. change (map TrimSpace (Split txt "|")) with values.
  destruct (Atoi (field values 0)) as [asn ea]. cbn [fst snd] in Ha |- *. subst ea.
  step_country Hc.
  destruct (ParseCIDR (field values 1)) as [rg er]. cbn [fst snd] in Hr |- *. subst er.
  reflexivity.
Qed.

End DirectoryRecords.

(* ================================================================= *)
(** ** The two parsers on the same text *)

(** C7 as stated fails: on the ASN-mode text
    "64500 | US | arin | 1998-00-00 | EXAMPLE-AS" the session resolver
    yields a record (the date error is ignored) and the directory resolver
    yields an error (the date error is returned). *)
Lemma C7_counterexample :
  @LookupTXT Sample.world "AS64500.asn.cymru.com"
  = (["64500 | US | arin | 1998-00-00 | EXAMPLE-AS"], None)
  /\ List.length (Split "64500 | US | arin | 1998-00-00 | EXAMPLE-AS" "|") = 5
  /\ whoisClient.LookupASNs_line (E := Sample.world)
       "64500 | US | arin | 1998-00-00 | EXAMPLE-AS"
     = inr (Sample.response [] 64500 None ("US", "United States") "arin" zeroTime
              "EXAMPLE-AS")
  /\ fst (dnsClient.LookupASN (E := Sample.world) 64500)
     = Done (None, Some (Errorf2 "Could not parse date (%s): %s" "1998-00-00"
                           (TimeParseError "2006-01-02" "1998-00-00"))).
Proof. repeat split. Qed.

(** C7, amended: when the DNS answers the query for [asn] with a text of
    five fields whose asn field reads as [asn], whose country code resolves
    and whose date is empty or a calendar date, the session resolver's turn
    on that text and the directory resolver's lookup yield the same record;
    and a text that does not have five fields is an error for both. *)
Theorem C7_parsers_agree_on_accepted_text {E : Externals} :
  (forall (asn : Z) (txt : string) (others : list string),
      let values := map TrimSpace (Split txt "|") in
      LookupTXT (ASN_String asn ++ ".asn.cymru.com") = (txt :: others, None) ->
      List.length (Split txt "|") = 5 ->
      Atoi (field values 0) = (asn, None) ->
      snd (NewCountryFromCode (field values 1)) = None ->
      field values 3 = "" \/ snd (ParseDate (field values 3)) = None ->
      exists re : Response,
        whoisClient.LookupASNs_line txt = inr re
        /\ fst (dnsClient.LookupASN asn) = Done (Some re, None))
  /\ (forall (asn : Z) (txt : string) (others : list string),
      LookupTXT (ASN_String asn ++ ".asn.cymru.com") = (txt :: others, None) ->
      List.length (Split txt "|") <> 5 ->
      (exists e, whoisClient.LookupASNs_line txt = inl e)
      /\ (exists e, fst (dnsClient.LookupASN asn) = Done (None, Some e))).
Proof.
  split.
  - intros asn txt others values HT Hl Ha Hc Hd.
    assert (Ha' : snd (Atoi (field values 0)) = None) by (rewrite Ha; reflexivity).
    rewrite (dns_LookupASN_record asn txt others HT Hl Hc Hd).
    rewrite (LookupASNs_line_ok txt (numeric_not_marker txt Ha') Hl Ha').
    fold values. rewrite Ha. cbn [fst].
    eexists. split; reflexivity.
  - intros asn txt others HT Hl. split.
    + unfold whoisClient.LookupASNs_line.
      destruct (HasPrefix txt "Error: "); [eexists; reflexivity |].
      destruct (Nat.eqb_spec (List.length (Split txt "|")) whoisClient.netcatASNTokensLength)
        as [Heq | _]; [contradiction |].
      eexists; reflexivity.
    + unfold dnsClient.LookupASN, dnsClient.query. rewrite bind_done, HT.
      destruct (Nat.eqb_spec (List.length (Split txt "|")) 5) as [Heq | _]; [contradiction |].
      eexists; reflexivity.
Qed.

Lemma C7_parsers_agree_on_accepted_text_witness :
  exists re : @Response Sample.world,
    whoisClient.LookupASNs_line "15169 | US | arin | 2000-03-30 | GOOGLE, US" = inr re
    /\ fst (dnsClient.LookupASN 15169) = Done (Some re, None).
Proof.
  apply (proj1 (@C7_parsers_agree_on_accepted_text Sample.world)
           15169%Z "15169 | US | arin | 2000-03-30 | GOOGLE, US" []).
  - reflexivity.
  - reflexivity.
  - reflexivity.
  - reflexivity.
  - right. reflexivity.
Defined.

(* ================================================================= *)
(** ** More on the reverse-name encoder *)

(** X1: an address whose length is neither 4 nor 16 gets the empty name
    and the error that carries its length. *)
Theorem X1_getLookupName_rejects_other_lengths (ip : net_IP) :
  List.length ip <> 4 -> List.length ip <> 16 ->
  getLookupName ip
  = Done ("", Some (ErrorfLen "Could not parse IP. Invalid length (%d)" (List.length ip))).
Proof. exact (getLookupName_bad_length ip). Qed.

Lemma X1_getLookupName_rejects_other_lengths_witness :
  getLookupName (map B [1; 2; 3; 4; 5; 6]%N)
  = Done ("", Some (ErrorfLen "Could not parse IP. Invalid length (%d)" 6)).
Proof.
  apply (X1_getLookupName_rejects_other_lengths (map B [1; 2; 3; 4; 5; 6]%N)).
  - cbn. lia.
  - cbn. lia.
Defined.

Lemma outerLoop_16 (a0 a1 a2 a3 a4 a5 a6 a7 a8 a9 a10 a11 a12 a13 a14 a15 : byte) (b : string) :
  exists b', outerLoop 8 [a0; a1; a2; a3; a4; a5; a6; a7; a8; a9; a10; a11; a12; a13; a14; a15] b
             = Done b'.
Proof. cbn -[innerLoop]. eexists. reflexivity. Qed.

(** X2: the encoder panics on no slice other than the 4-byte ones; on every
    other slice it returns, with a nil error exactly when the slice has 16
    bytes. *)
Theorem X2_getLookupName_returns (ip : net_IP) :
  List.length ip <> 4 ->
  exists (name : string) (e : option error),
    getLookupName ip = Done (name, e) /\ (e = None <-> List.length ip = 16).
Proof.
  intro H4.
  destruct (Nat.eq_dec (List.length ip) 16) as [H16 | H16].
  - destruct (length16 ip H16) as (a0 & a1 & a2 & a3 & a4 & a5 & a6 & a7 & a8 & a9
                                    & a10 & a11 & a12 & a13 & a14 & a15 & ->).
    unfold getLookupName.
    destruct (Nat.eqb (List.length (To4 _)) IPv4len).
    + cbn -[fmt_d]. eexists _, None. split; [reflexivity | tauto].
    + cbn [List.length Nat.eqb IPv6len negb].
      destruct (outerLoop_16 a0 a1 a2 a3 a4 a5 a6 a7 a8 a9 a10 a11 a12 a13 a14 a15 "")
        as [b' ->].
      cbn [run_bind]. eexists _, None. split; [reflexivity | tauto].
  - rewrite (getLookupName_bad_length ip H4 H16).
    eexists _, _. split; [reflexivity |]. split; [discriminate | contradiction].
Qed.

Lemma X2_getLookupName_returns_witness :
  exists (name : string) (e : option error),
    getLookupName (v4in6 192 0 2 1) = Done (name, e)
    /\ (e = None <-> List.length (v4in6 192 0 2 1) = 16).
Proof.
  apply (X2_getLookupName_returns (v4in6 192 0 2 1)). cbn. lia.
Defined.

(** X3: every IPv4 address in its 16-byte form [::ffff:b1.b2.b3.b4] gets
    the name [b4.b3.b2.b1.origin.asn.cymru.com], the bytes in decimal. *)
Theorem X3_getLookupName_v4_mapped (b1 b2 b3 b4 : byte) :
  getLookupName (repeat x00 10 ++ [xff; xff; b1; b2; b3; b4])%list
  = Done (fmt_d b4 ++ "." ++ fmt_d b3 ++ "." ++ fmt_d b2 ++ "." ++ fmt_d b1
            ++ ".origin.asn.cymru.com", None).
Proof. exact (getLookupName_v4in6 b1 b2 b3 b4). Qed.

Lemma hexDigit_get_inj (i j : nat) :
  i < 16 -> j < 16 -> String.get i hexDigit = String.get j hexDigit -> i = j.
Proof.
  intros Hi Hj.
  do 16 (destruct i as [| i];
         [do 16 (destruct j as [| j]; [first [reflexivity | discriminate] |]); lia |]).
  lia.
Qed.

Lemma hexDigit_get_some (i : nat) : i < 16 -> exists c, String.get i hexDigit = Some c.
Proof.
  intro Hi. do 16 (destruct i as [| i]; [eexists; reflexivity |]). lia.
Qed.

Lemma hexAt_inj (n m : N) : (n < 16)%N -> (m < 16)%N -> hexAt n = hexAt m -> n = m.
Proof.
  intros Hn Hm H. unfold hexAt in H.
  assert (Hn' : N.to_nat n < 16) by lia.
  assert (Hm' : N.to_nat m < 16) by lia.
  destruct (hexDigit_get_some _ Hn') as [c Hc].
  destruct (hexDigit_get_some _ Hm') as [d Hd].
  rewrite Hc, Hd in H. subst d.
  apply N2Nat.inj. apply hexDigit_get_inj; [assumption | assumption | congruence].
Qed.

Lemma to_N_inj (x y : byte) : Byte.to_N x = Byte.to_N y -> x = y.
Proof.
  intro H. pose proof (Byte.of_to_N x) as Hx. rewrite H, Byte.of_to_N in Hx.
  now injection Hx.
Qed.

(** The four digits of a word determine its two bytes. *)
Lemma word_inj (h l h' l' : byte) :
  hexAt (((256 * Byte.to_N h + Byte.to_N l) / 16 ^ 0) mod 16)%N
  = hexAt (((256 * Byte.to_N h' + Byte.to_N l') / 16 ^ 0) mod 16)%N ->
  hexAt (((256 * Byte.to_N h + Byte.to_N l) / 16 ^ 1) mod 16)%N
  = hexAt (((256 * Byte.to_N h' + Byte.to_N l') / 16 ^ 1) mod 16)%N ->
  hexAt (((256 * Byte.to_N h + Byte.to_N l) / 16 ^ 2) mod 16)%N
  = hexAt (((256 * Byte.to_N h' + Byte.to_N l') / 16 ^ 2) mod 16)%N ->
  hexAt (((256 * Byte.to_N h + Byte.to_N l) / 16 ^ 3) mod 16)%N
  = hexAt (((256 * Byte.to_N h' + Byte.to_N l') / 16 ^ 3) mod 16)%N ->
  h = h' /\ l = l'.
Proof.
  intros H0 H1 H2 H3.
  pose proof (Byte.to_N_bounded h). pose proof (Byte.to_N_bounded l).
  pose proof (Byte.to_N_bounded h'). pose proof (Byte.to_N_bounded l').
  set (w := (256 * Byte.to_N h + Byte.to_N l)%N) in *.
  set (w' := (256 * Byte.to_N h' + Byte.to_N l')%N) in *.
  apply hexAt_inj in H0; [| apply N.mod_lt; discriminate ..].
  apply hexAt_inj in H1; [| apply N.mod_lt; discriminate ..].
  apply hexAt_inj in H2; [| apply N.mod_lt; discriminate ..].
  apply hexAt_inj in H3; [| apply N.mod_lt; discriminate ..].
  change (16 ^ 0)%N with 1%N in H0. change (16 ^ 1)%N with 16%N in H1.
  replace (w / 16 ^ 2)%N with (w / 16 / 16)%N in H2
    by (rewrite N.Div0.div_div; reflexivity).
  replace (w' / 16 ^ 2)%N with (w' / 16 / 16)%N in H2
    by (rewrite N.Div0.div_div; reflexivity).
  replace (w / 16 ^ 3)%N with (w / 16 / 16 / 16)%N in H3
    by (rewrite !N.Div0.div_div; reflexivity).
  replace (w' / 16 ^ 3)%N with (w' / 16 / 16 / 16)%N in H3
    by (rewrite !N.Div0.div_div; reflexivity).
  rewrite !N.div_1_r in H0.
  assert (Hw : w = w').
  { assert (w < 65536)%N by (unfold w; lia).
    assert (w' < 65536)%N by (unfold w'; lia).
    clearbody w w'.
    pose proof (N.div_mod w 16). pose proof (N.div_mod w' 16).
    pose proof (N.div_mod (w / 16) 16). pose proof (N.div_mod (w' / 16) 16).
    pose proof (N.div_mod (w / 16 / 16) 16). pose proof (N.div_mod (w' / 16 / 16) 16).
    assert (w / 16 / 16 / 16 < 16)%N.
    { rewrite !N.Div0.div_div. apply N.Div0.div_lt_upper_bound. lia. }
    assert (w' / 16 / 16 / 16 < 16)%N.
    { rewrite !N.Div0.div_div. apply N.Div0.div_lt_upper_bound. lia. }
    rewrite (N.mod_small (w / 16 / 16 / 16) 16) in H3 by assumption.
    rewrite (N.mod_small (w' / 16 / 16 / 16) 16) in H3 by assumption.
    lia. }
  unfold w, w' in Hw.
  assert (Byte.to_N h = Byte.to_N h') by lia.
  assert (Byte.to_N l = Byte.to_N l') by lia.
  split; apply to_N_inj; assumption.
Qed.

Lemma String_inj (c c' : ascii) (s s' : string) :
  String c s = String c' s' -> c = c' /\ s = s'.
Proof. intro H. injection H as -> ->. split; reflexivity. Qed.

Lemma spec_v6name_inj (ip1 ip2 : net_IP) :
  List.length ip1 = 16 -> List.length ip2 = 16 ->
  spec_v6name ip1 = spec_v6name ip2 -> ip1 = ip2.
Proof.
  intros H1 H2 H.
  destruct (length16 ip1 H1) as (a0 & a1 & a2 & a3 & a4 & a5 & a6 & a7 & a8 & a9
                                  & a10 & a11 & a12 & a13 & a14 & a15 & ->).
  destruct (length16 ip2 H2) as (b0 & b1 & b2 & b3 & b4 & b5 & b6 & b7 & b8 & b9
                                  & b10 & b11 & b12 & b13 & b14 & b15 & ->).
  unfold spec_v6name, nibblesLSF in H.
  cbn -[hexAt N.div N.modulo N.pow N.mul N.add Byte.to_N] in H.
  repeat match type of H with
         | String _ _ = String _ _ =>
             let Hc := fresh "Hc" in apply String_inj in H; destruct H as [Hc H]
         end.
  repeat match goal with
         | Hx : hexAt ((?w / 16 ^ 0) mod 16)%N = hexAt ((?w' / 16 ^ 0) mod 16)%N,
           Hy : hexAt ((?w / 16 ^ 1) mod 16)%N = hexAt ((?w' / 16 ^ 1) mod 16)%N,
           Hz : hexAt ((?w / 16 ^ 2) mod 16)%N = hexAt ((?w' / 16 ^ 2) mod 16)%N,
           Ht : hexAt ((?w / 16 ^ 3) mod 16)%N = hexAt ((?w' / 16 ^ 3) mod 16)%N |- _ =>
             destruct (word_inj _ _ _ _ Hx Hy Hz Ht) as [? ?]; clear Hx Hy Hz Ht
         end.
  subst. reflexivity.
Qed.

Lemma fmt_d_not_nil (b : byte) : N.to_uint (Byte.to_N b) <> Decimal.Nil.
Proof. destruct b; discriminate. Qed.

Lemma fmt_d_inj (b b' : byte) : fmt_d b = fmt_d b' -> b = b'.
Proof.
  unfold fmt_d. intro H.
  apply (f_equal NilZero.uint_of_string) in H.
  rewrite !NilZero.usu in H by apply fmt_d_not_nil.
  injection H as H. apply DecimalN.Unsigned.to_uint_inj in H.
  now apply to_N_inj.
Qed.

Lemma fmt_d_nodot (b : byte) : mem "." (fmt_d b) = false.
Proof. destruct b; reflexivity. Qed.

Lemma fmt_d_length (b : byte) : String.length (fmt_d b) <= 3.
Proof. destruct b; cbn; lia. Qed.

(** Two strings that agree and whose parts before the first dot have no
    dot agree part by part. *)
Lemma app_dot_inj (s1 s2 r1 r2 : string) :
  mem "." s1 = false -> mem "." s2 = false ->
  (s1 ++ String "." r1)%string = (s2 ++ String "." r2)%string ->
  s1 = s2 /\ r1 = r2.
Proof.
  revert s2. induction s1 as [| c s1 IH]; intros s2 H1 H2 H.
  - destruct s2 as [| d s2]; cbn [String.append] in H.
    + injection H as ->. split; reflexivity.
    + injection H as Hd _. subst d. cbn [mem] in H2.
      rewrite Ascii.eqb_refl in H2. discriminate H2.
  - destruct s2 as [| d s2]; cbn [String.append] in H.
    + injection H as Hc _. subst c. cbn [mem] in H1.
      rewrite Ascii.eqb_refl in H1. discriminate H1.
    + injection H as -> H.
      cbn [mem] in H1, H2.
      apply orb_false_elim in H1 as [_ H1]. apply orb_false_elim in H2 as [_ H2].
      destruct (IH s2 H1 H2 H) as [-> ->]. split; reflexivity.
Qed.

Lemma v4name_inj (a1 a2 a3 a4 b1 b2 b3 b4 : byte) :
  fmt_d a4 ++ "." ++ fmt_d a3 ++ "." ++ fmt_d a2 ++ "." ++ fmt_d a1 ++ ".origin.asn.cymru.com"
  = fmt_d b4 ++ "." ++ fmt_d b3 ++ "." ++ fmt_d b2 ++ "." ++ fmt_d b1 ++ ".origin.asn.cymru.com" ->
  a1 = b1 /\ a2 = b2 /\ a3 = b3 /\ a4 = b4.
Proof.
  intro H. cbn [String.append] in H.
  apply app_dot_inj in H as [H4 H]; try apply fmt_d_nodot.
  apply app_dot_inj in H as [H3 H]; try apply fmt_d_nodot.
  apply app_dot_inj in H as [H2 H]; try apply fmt_d_nodot.
  apply app_dot_inj in H as [H1 _]; try apply fmt_d_nodot.
  repeat split; apply fmt_d_inj; assumption.
Qed.

Lemma length_append (s1 s2 : string) :
  String.length (s1 ++ s2) = String.length s1 + String.length s2.
Proof. induction s1 as [| c s1 IH]; cbn; [reflexivity | now rewrite IH]. Qed.

Lemma v4name_length (a1 a2 a3 a4 : byte) :
  String.length (fmt_d a4 ++ "." ++ fmt_d a3 ++ "." ++ fmt_d a2 ++ "." ++ fmt_d a1
                   ++ ".origin.asn.cymru.com") <= 36.
Proof.
  rewrite !length_append.
  pose proof (fmt_d_length a1). pose proof (fmt_d_length a2).
  pose proof (fmt_d_length a3). pose proof (fmt_d_length a4).
  cbn [String.length]. lia.
Qed.

Lemma spec_v6name_length (ip : net_IP) :
  List.length ip = 16 -> String.length (spec_v6name ip) = 85.
Proof.
  intro H.
  destruct (length16 ip H) as (a0 & a1 & a2 & a3 & a4 & a5 & a6 & a7 & a8 & a9
                                & a10 & a11 & a12 & a13 & a14 & a15 & ->).
  unfold spec_v6name, nibblesLSF.
  cbn -[hexAt N.div N.modulo N.pow N.mul N.add Byte.to_N]. reflexivity.
Qed.

(** A 16-byte address is IPv4-mapped or [To4] gives nil for it. *)
Lemma To4_16 (ip : net_IP) :
  List.length ip = 16 ->
  To4 ip = []
  \/ exists b1 b2 b3 b4, ip = (repeat x00 10 ++ [xff; xff; b1; b2; b3; b4])%list.
Proof.
  intro H.
  destruct (length16 ip H) as (a0 & a1 & a2 & a3 & a4 & a5 & a6 & a7 & a8 & a9
                                & a10 & a11 & a12 & a13 & a14 & a15 & ->).
  unfold To4. cbn [List.length Nat.eqb IPv4len IPv6len firstn isZeros forallb nth andb].
  repeat match goal with
         | |- context [Byte.eqb ?x ?y] =>
             let Hb := fresh "Hb" in
             destruct (Byte.eqb x y) eqn:Hb;
             [apply Byte.byte_dec_bl in Hb; subst x | clear Hb];
             cbn [andb]; try (left; reflexivity)
         end.
  right. eexists _, _, _, _. reflexivity.
Qed.

Lemma Done_name_inj (n1 n2 : string) (e1 e2 : option error) :
  Done (n1, e1) = Done (n2, e2) -> n1 = n2.
Proof. intro H. now injection H. Qed.

(** X4: the encoder is injective on 16-byte addresses: two addresses with
    the same name are the same address, whether they are IPv4-mapped or
    not. *)
Theorem X4_getLookupName_injective (ip1 ip2 : net_IP) :
  List.length ip1 = 16 -> List.length ip2 = 16 ->
  getLookupName ip1 = getLookupName ip2 -> ip1 = ip2.
Proof.
  intros H1 H2 H.
  destruct (To4_16 ip1 H1) as [T1 | (a1 & a2 & a3 & a4 & E1)];
    destruct (To4_16 ip2 H2) as [T2 | (b1 & b2 & b3 & b4 & E2)].
  - rewrite (getLookupName_v6 ip1 H1 T1), (getLookupName_v6 ip2 H2 T2) in H.
    apply Done_name_inj in H. exact (spec_v6name_inj ip1 ip2 H1 H2 H).
  - exfalso. rewrite (getLookupName_v6 ip1 H1 T1), E2, getLookupName_v4in6 in H.
    apply Done_name_inj in H. apply (f_equal String.length) in H.
    rewrite (spec_v6name_length ip1 H1) in H.
    pose proof (v4name_length b1 b2 b3 b4). lia.
  - exfalso. rewrite (getLookupName_v6 ip2 H2 T2), E1, getLookupName_v4in6 in H.
    apply Done_name_inj in H. apply (f_equal String.length) in H.
    rewrite (spec_v6name_length ip2 H2) in H.
    pose proof (v4name_length a1 a2 a3 a4). lia.
  - rewrite E1, E2, !getLookupName_v4in6 in H. apply Done_name_inj in H.
    destruct (v4name_inj _ _ _ _ _ _ _ _ H) as (-> & -> & -> & ->).
    rewrite E1, E2. reflexivity.
Qed.

Lemma X4_getLookupName_injective_witness :
  map B [32; 1; 13; 184; 0; 0; 0; 0; 0; 0; 0; 0; 0; 0; 0; 1]%N
  = (map B [32; 1; 13; 184; 0; 0; 0; 0; 0; 0; 0; 0] ++ map B [0; 0; 0; 1])%N%list.
Proof.
  apply X4_getLookupName_injective; reflexivity.
Defined.

(* ================================================================= *)
(** ** More on the directory resolver *)

Section DirectoryShape.
Context {E : Externals}.
Import dnsClient.

(** [LookupASN] asks one question and answers with a record or with an
    error. *)
Lemma dns_LookupASN_cases (asn : Z) :
  (exists re : Response,
      LookupASN asn = (Done (Some re, None), [ASN_String asn ++ ".asn.cymru.com"])
      /\ ASN re = asn /\ IP re = [] /\ Range re = None)
  \/ (exists e : error,
         LookupASN asn = (Done (None, Some e), [ASN_String asn ++ ".asn.cymru.com"])).
Proof.
  unfold LookupASN, query. rewrite bind_done. cbn [fst snd].
  destruct (LookupTXT (ASN_String asn ++ ".asn.cymru.com")) as [txts [e |]].
  - right. eexists. reflexivity.
  - destruct txts as [| txt others]; [right; eexists; reflexivity |].
    destruct (negb (Nat.eqb (List.length (Split txt "|")) 5));
      [right; eexists; reflexivity |].
    destruct (NewCountryFromCode _) as [country [e |]]; [right; eexists; reflexivity |].
    destruct (String.eqb _ ""); cbn [fst snd].
    + left. eexists. repeat split.
    + destruct (ParseDate _) as [t [e |]]; cbn [fst snd].
      * right. eexists. reflexivity.
      * left. eexists. repeat split.
Qed.

(** The loop of a batch up to the first lookup that fails. *)
Lemma lookupEach_first_failure {A} (lookup : A -> Net (option Response * option error)) :
  forall (pre : list A) (x : A) (post : list A) (rs : list Response) (e : error) (s : slice),
    Forall2 (fun a r => fst (lookup a) = Done (Some r, None)) pre rs ->
    fst (lookup x) = Done (None, Some e) ->
    lookupEach lookup (pre ++ x :: post)%list s
    = (Done ((elems s ++ rs)%list, Some e),
       List.concat (map (fun a => snd (lookup a)) (pre ++ [x])%list)).
Proof.
  induction pre as [| a pre IH]; intros x post rs e s HF Hx.
  - inversion HF; subst. cbn [app lookupEach map List.concat].
    destruct (lookup x) as [o l]. cbn [fst snd] in Hx |- *. subst o.
    rewrite bind_done. cbn. rewrite !app_nil_r. reflexivity.
  - inversion HF as [| ? r ? rs' Hr HF']; subst.
    cbn [app lookupEach map List.concat].
    destruct (lookup a) as [o l]. cbn [fst snd] in Hr |- *. subst o.
    rewrite bind_done. cbn [fst snd].
    unfold lift, deref. rewrite bind_done. cbn [fst snd app].
    rewrite (IH x post rs' e (append s r) HF' Hx). cbn [fst snd].
    f_equal. f_equal. f_equal.
    unfold append. destruct (Nat.ltb (len s) (cap s)); cbn; rewrite <- app_assoc; reflexivity.
Qed.

End DirectoryShape.

Section DirectoryLookups.
Context {E : Externals}.
Import dnsClient.

Lemma getLookupName_done (ip : net_IP) :
  List.length ip <> 4 -> exists name e, getLookupName ip = Done (name, e).
Proof.
  intro H4.
  destruct (Nat.eq_dec (List.length ip) 16) as [H16 | H16].
  - destruct (To4_16 ip H16) as [T | (b1 & b2 & b3 & b4 & ->)].
    + rewrite (getLookupName_v6 ip H16 T). eexists _, _. reflexivity.
    + rewrite getLookupName_v4in6. eexists _, _. reflexivity.
  - rewrite (getLookupName_bad_length ip H4 H16). eexists _, _. reflexivity.
Qed.

(** [LookupIP] on an address that is not a 4-byte slice: the name is
    looked up first; a record comes with a second query, for its asn, whose
    answer gives the name of the record; anything else is an error, after
    one or two queries. *)
Lemma dns_LookupIP_cases (ip : net_IP) :
  List.length ip <> 4 ->
  exists (name : string) (e0 : option error),
    getLookupName ip = Done (name, e0)
    /\ ((exists re a : Response,
            LookupIP ip
            = (Done (Some re, None), [name; ASN_String (ASN re) ++ ".asn.cymru.com"])
            /\ IP re = ip
            /\ fst (LookupASN (ASN re)) = Done (Some a, None)
            /\ Name re = Name a)
        \/ (exists (e : error) (l : list string),
               LookupIP ip = (Done (None, Some e), name :: l)
               /\ (l = [] \/ exists asn : Z, l = [ASN_String asn ++ ".asn.cymru.com"]))).
Proof.
  intro H4.
  destruct (getLookupName_done ip H4) as (name & e0 & HN).
  exists name, e0. split; [exact HN |].
  unfold LookupIP, lift, query. rewrite HN, !bind_done. cbn [fst snd app].
  destruct (LookupTXT name) as [txts [e |]];
    [right; eexists _, []; split; [reflexivity | left; reflexivity] |].
  destruct txts as [| txt others];
    [right; eexists _, []; split; [reflexivity | left; reflexivity] |].
  destruct (negb (Nat.eqb (List.length (Split txt "|")) 5));
    [right; eexists _, []; split; [reflexivity | left; reflexivity] |].
  destruct (Atoi _) as [asn [e |]];
    [right; eexists _, []; split; [reflexivity | left; reflexivity] |].
  destruct (NewCountryFromCode _) as [country [e |]];
    [right; eexists _, []; split; [reflexivity | left; reflexivity] |].
  destruct (ParseCIDR _) as [rg [e |]];
    [right; eexists _, []; split; [reflexivity | left; reflexivity] |].
  destruct (dns_LookupASN_cases asn) as [(a & Ha & _) | (ea & He)].
  - destruct (String.eqb _ ""); cbn [fst snd];
      [| destruct (ParseDate _) as [t [e |]]; cbn [fst snd];
         [right; eexists _, []; split; [reflexivity | left; reflexivity] |]];
      rewrite Ha, bind_done; cbn [fst snd ret app];
      left;
      match goal with
      | |- context [Done (Some ?R, None)] => exists R, a
      end;
      (split; [reflexivity |]); cbn [ASN IP Name];
      rewrite Ha; repeat split.
  - destruct (String.eqb _ ""); cbn [fst snd];
      [| destruct (ParseDate _) as [t [e |]]; cbn [fst snd];
         [right; eexists _, []; split; [reflexivity | left; reflexivity] |]];
      rewrite He, bind_done; cbn [fst snd ret app];
      right; eexists _, _; (split; [reflexivity |]); right; exists asn; reflexivity.
Qed.

End DirectoryLookups.

(** X5: [dnsClient.LookupASN] issues exactly one TXT query, for the
    display string of the asn followed by ".asn.cymru.com", never panics, and
    returns either a record with a nil error or no record with an error; the
    record carries the asn that was asked for and neither address nor
    range. *)
Theorem X5_dns_LookupASN_one_query {E : Externals} (asn : Z) :
  snd (dnsClient.LookupASN asn) = [ASN_String asn ++ ".asn.cymru.com"]
  /\ ((exists re : Response,
          fst (dnsClient.LookupASN asn) = Done (Some re, None)
          /\ ASN re = asn /\ IP re = [] /\ Range re = None)
      \/ (exists e : error, fst (dnsClient.LookupASN asn) = Done (None, Some e))).
Proof.
  destruct (dns_LookupASN_cases asn) as [(re & H & Hr) | (e & H)]; rewrite H; cbn [fst snd].
  - split; [reflexivity |]. left. exists re. split; [reflexivity | exact Hr].
  - split; [reflexivity |]. right. exists e. reflexivity.
Qed.

(** X6: the errors of [dnsClient.LookupASN]: an error of the DNS is
    returned as it is; an answer without records is "No records found"; a
    first record that does not have five fields is reported with its text; a
    country code that does not resolve is reported with the code and the
    error of the country table. *)
Theorem X6_dns_LookupASN_errors {E : Externals} (asn : Z) :
  (forall (txts : list string) (e : error),
      LookupTXT (ASN_String asn ++ ".asn.cymru.com") = (txts, Some e) ->
      fst (dnsClient.LookupASN asn) = Done (None, Some e))
  /\ (LookupTXT (ASN_String asn ++ ".asn.cymru.com") = ([], None) ->
      fst (dnsClient.LookupASN asn) = Done (None, Some (New "No records found")))
  /\ (forall (txt : string) (others : list string),
      LookupTXT (ASN_String asn ++ ".asn.cymru.com") = (txt :: others, None) ->
      List.length (Split txt "|") <> 5 ->
      fst (dnsClient.LookupASN asn)
      = Done (None, Some (Errorf1 "Received unrecognized response in AS lookup: %s" txt)))
  /\ (forall (txt : string) (others : list string) (e : error),
      let values := map TrimSpace (Split txt "|") in
      LookupTXT (ASN_String asn ++ ".asn.cymru.com") = (txt :: others, None) ->
      List.length (Split txt "|") = 5 ->
      snd (NewCountryFromCode (field values 1)) = Some e ->
      fst (dnsClient.LookupASN asn)
      = Done (None, Some (Errorf2 "Could not parse CountryCode (%s): %s" (field values 1) e))).
Proof.
  unfold dnsClient.LookupASN, dnsClient.query. rewrite bind_done. cbn [fst snd].
  repeat apply conj.
  - intros txts e ->. reflexivity.
  - intros ->. reflexivity.
  - intros txt others -> Hl.
    destruct (Nat.eqb_spec (List.length (Split txt "|")) 5); [contradiction | reflexivity].
  - intros txt others e -> Hl Hc. cbv beta iota. rewrite Hl. cbn [Nat.eqb negb].
    destruct (NewCountryFromCode _) as [c ec].
    cbn [snd] in Hc. subst ec. reflexivity.
Qed.

Lemma X6_dns_LookupASN_errors_witness :
  fst (dnsClient.LookupASN (E := Sample.oddWorld) 64499)
  = Done (None, Some (Foreign "lookup AS64499.asn.cymru.com: no such host"))
  /\ fst (dnsClient.LookupASN (E := Sample.oddWorld) 64496)
     = Done (None, Some (New "No records found"))
  /\ fst (dnsClient.LookupASN (E := Sample.oddWorld) 64497)
     = Done (None, Some (Errorf1 "Received unrecognized response in AS lookup: %s"
                           "64497 | US | arin | 2001-01-01"))
  /\ fst (dnsClient.LookupASN (E := Sample.oddWorld) 64498)
     = Done (None, Some (Errorf2 "Could not parse CountryCode (%s): %s" "ZZ"
                           (Foreign "unknown country code: ZZ"))).
Proof.
  repeat apply conj.
  - exact (proj1 (@X6_dns_LookupASN_errors Sample.oddWorld 64499) [] _ eq_refl).
  - exact (proj1 (proj2 (@X6_dns_LookupASN_errors Sample.oddWorld 64496)) eq_refl).
  - refine (proj1 (proj2 (proj2 (@X6_dns_LookupASN_errors Sample.oddWorld 64497)))
              "64497 | US | arin | 2001-01-01" [] eq_refl _).
    cbn. lia.
  - exact (proj2 (proj2 (proj2 (@X6_dns_LookupASN_errors Sample.oddWorld 64498)))
             "64498 | ZZ | arin | 2001-01-01 | EXAMPLE-ZZ" [] _ eq_refl eq_refl eq_refl).
Defined.

(** X7: [dnsClient.LookupIP] on an address that is not a 4-byte slice never
    panics.  It first queries the name of the encoder.  When it returns a
    record, it has made exactly one more query, for the asn of the record;
    the record carries the address that was asked for, and its name is the
    name of the record that [LookupASN] returns for that asn.  Otherwise it
    returns an error and no record, after at most one more query. *)
Theorem X7_dns_LookupIP_outcomes {E : Externals} (ip : net_IP) :
  List.length ip <> 4 ->
  exists (name : string) (e0 : option error),
    getLookupName ip = Done (name, e0)
    /\ ((exists re a : Response,
            dnsClient.LookupIP ip
            = (Done (Some re, None), [name; ASN_String (ASN re) ++ ".asn.cymru.com"])
            /\ IP re = ip
            /\ fst (dnsClient.LookupASN (ASN re)) = Done (Some a, None)
            /\ Name re = Name a)
        \/ (exists (e : error) (l : list string),
               dnsClient.LookupIP ip = (Done (None, Some e), name :: l)
               /\ (l = [] \/ exists asn : Z, l = [ASN_String asn ++ ".asn.cymru.com"]))).
Proof. exact (dns_LookupIP_cases ip). Qed.

Lemma X7_dns_LookupIP_outcomes_witness :
  exists (name : string) (e0 : option error),
    getLookupName (v4in6 8 8 4 4) = Done (name, e0)
    /\ ((exists re a : @Response Sample.world,
            dnsClient.LookupIP (v4in6 8 8 4 4)
            = (Done (Some re, None), [name; @ASN_String Sample.world (ASN re) ++ ".asn.cymru.com"])
            /\ IP re = v4in6 8 8 4 4
            /\ fst (dnsClient.LookupASN (ASN re)) = Done (Some a, None)
            /\ Name re = Name a)
        \/ (exists (e : error) (l : list string),
               dnsClient.LookupIP (E := Sample.world) (v4in6 8 8 4 4)
               = (Done (None, Some e), name :: l)
               /\ (l = [] \/ exists asn : Z, l = [@ASN_String Sample.world asn ++ ".asn.cymru.com"]))).
Proof.
  apply (@X7_dns_LookupIP_outcomes Sample.world (v4in6 8 8 4 4)). cbn. lia.
Defined.

Section DirectoryBatches.
Context {E : Externals}.
Import dnsClient.

(** The loop of a batch up to a lookup that panics. *)
Lemma lookupEach_panic {A} (lookup : A -> Net (option Response * option error)) :
  forall (pre : list A) (x : A) (post : list A) (rs : list Response) (p : string) (s : slice),
    Forall2 (fun a r => fst (lookup a) = Done (Some r, None)) pre rs ->
    fst (lookup x) = Panic p ->
    fst (lookupEach lookup (pre ++ x :: post)%list s) = Panic p.
Proof.
  induction pre as [| a pre IH]; intros x post rs p s HF Hx.
  - cbn [app lookupEach]. destruct (lookup x) as [o l]. cbn [fst] in Hx. subst o.
    reflexivity.
  - inversion HF as [| ? r ? rs' Hr HF']; subst.
    cbn [app lookupEach].
    destruct (lookup a) as [o l]. cbn [fst] in Hr. subst o.
    rewrite bind_done. cbn [fst snd].
    unfold lift, deref. rewrite bind_done. cbn [fst snd].
    exact (IH x post rs' p (append s r) HF' Hx).
Qed.

Lemma dns_LookupIP_four_bytes (b1 b2 b3 b4 : byte) :
  LookupIP [b1; b2; b3; b4] = (Panic "index out of range", []).
Proof. reflexivity. Qed.

End DirectoryBatches.

(** X8: [dnsClient.LookupIP] on a 4-byte address panics before any DNS
    query, and a batch panics at the first 4-byte address it reaches: the
    records of the addresses before it are not returned. *)
Theorem X8_dns_four_byte_address_panics {E : Externals} :
  (forall b1 b2 b3 b4 : byte,
      dnsClient.LookupIP [b1; b2; b3; b4] = (Panic "index out of range", []))
  /\ (forall (pre post : list net_IP) (rs : list Response) (b1 b2 b3 b4 : byte),
      Forall2 (fun ip r => fst (dnsClient.LookupIP ip) = Done (Some r, None)) pre rs ->
      fst (dnsClient.LookupIPs (pre ++ [b1; b2; b3; b4] :: post)%list)
      = Panic "index out of range").
Proof.
  split.
  - exact dns_LookupIP_four_bytes.
  - intros pre post rs b1 b2 b3 b4 HF. unfold dnsClient.LookupIPs.
    apply (lookupEach_panic _ pre [b1; b2; b3; b4] post rs); [exact HF | reflexivity].
Qed.

Lemma X8_dns_four_byte_address_panics_witness :
  fst (dnsClient.LookupIPs (E := Sample.world) [v4in6 8 8 4 4; [B 8; B 8; B 4; B 4]])
  = Panic "index out of range".
Proof.
  apply (proj2 (@X8_dns_four_byte_address_panics Sample.world)
           [v4in6 8 8 4 4] [] [Sample.rec_8_8_4_4] (B 8) (B 8) (B 4) (B 4)).
  constructor; [reflexivity | constructor].
Defined.

(** X9: a directory batch in which every lookup succeeds returns as many
    zero records as it has inputs, followed by the records of the lookups in
    the order of the inputs, and a nil error. *)
Theorem X9_dns_batch_all_succeed {E : Externals} :
  (forall (ips : list net_IP) (rs : list Response),
      Forall2 (fun ip r => fst (dnsClient.LookupIP ip) = Done (Some r, None)) ips rs ->
      fst (dnsClient.LookupIPs ips)
      = Done ((repeat zeroResponse (List.length ips) ++ rs)%list, None))
  /\ (forall (asns : list Z) (rs : list Response),
      Forall2 (fun asn r => fst (dnsClient.LookupASN asn) = Done (Some r, None)) asns rs ->
      fst (dnsClient.LookupASNs asns)
      = Done ((repeat zeroResponse (List.length asns) ++ rs)%list, None)).
Proof. split; [exact dns_LookupIPs_all_succeed | exact dns_LookupASNs_all_succeed]. Qed.

Lemma X9_dns_batch_all_succeed_witness :
  fst (dnsClient.LookupASNs (E := Sample.world) [15169%Z; 64501%Z])
  = Done ([zeroResponse; zeroResponse; Sample.rec_AS15169; Sample.rec_AS64501], None).
Proof.
  apply (proj2 (@X9_dns_batch_all_succeed Sample.world) [15169%Z; 64501%Z]
           [Sample.rec_AS15169; Sample.rec_AS64501]).
  constructor; [reflexivity |]. constructor; [reflexivity | constructor].
Defined.

(** X10: a directory batch stops at the first lookup that returns an
    error: it returns the zero records and the records obtained so far
    together with that error, and has made the queries of the inputs up to the
    failing one and no query for the inputs after it. *)
Theorem X10_dns_batch_first_failure {E : Externals} :
  (forall (pre : list net_IP) (x : net_IP) (post : list net_IP) (rs : list Response)
          (e : error),
      Forall2 (fun ip r => fst (dnsClient.LookupIP ip) = Done (Some r, None)) pre rs ->
      fst (dnsClient.LookupIP x) = Done (None, Some e) ->
      dnsClient.LookupIPs (pre ++ x :: post)%list
      = (Done ((repeat zeroResponse (List.length (pre ++ x :: post)%list) ++ rs)%list, Some e),
         List.concat (map (fun ip => snd (dnsClient.LookupIP ip)) (pre ++ [x])%list)))
  /\ (forall (pre : list Z) (x : Z) (post : list Z) (rs : list Response) (e : error),
      Forall2 (fun asn r => fst (dnsClient.LookupASN asn) = Done (Some r, None)) pre rs ->
      fst (dnsClient.LookupASN x) = Done (None, Some e) ->
      dnsClient.LookupASNs (pre ++ x :: post)%list
      = (Done ((repeat zeroResponse (List.length (pre ++ x :: post)%list) ++ rs)%list, Some e),
         List.concat (map (fun asn => snd (dnsClient.LookupASN asn)) (pre ++ [x])%list))).
Proof.
  split; intros pre x post rs e HF Hx.
  - unfold dnsClient.LookupIPs.
    now rewrite (lookupEach_first_failure _ pre x post rs e _ HF Hx).
  - unfold dnsClient.LookupASNs.
    now rewrite (lookupEach_first_failure _ pre x post rs e _ HF Hx).
Qed.

Lemma X10_dns_batch_first_failure_witness :
  dnsClient.LookupASNs (E := Sample.world) [15169%Z; 64500%Z; 64501%Z]
  = (Done ([zeroResponse; zeroResponse; zeroResponse; Sample.rec_AS15169],
           Some (Errorf2 "Could not parse date (%s): %s" "1998-00-00"
                   (TimeParseError "2006-01-02" "1998-00-00"))),
     ["AS15169.asn.cymru.com"; "AS64500.asn.cymru.com"]).
Proof.
  apply (proj2 (@X10_dns_batch_first_failure Sample.world) [15169%Z] 64500%Z [64501%Z]
           [Sample.rec_AS15169]).
  - constructor; [reflexivity | constructor].
  - reflexivity.
Defined.

(* ================================================================= *)
(** ** More on the session resolver *)

Section SessionMore.
Context {E : Externals}.
Import whoisClient.

Lemma LookupIPs_line_inv (raw : string) (re : Response) :
  let tokens := map TrimSpace (Split raw "|") in
  LookupIPs_line raw = inr re ->
  List.length (Split raw "|") = 7
  /\ snd (Atoi (field tokens 0)) = None
  /\ snd (ParseCIDR (field tokens 2)) = None.
Proof.
  intros tokens. unfold LookupIPs_line.
  destruct (HasPrefix raw "Error: "); [discriminate |].
  destruct (Nat.eqb_spec (List.length (Split raw "|")) netcatIPTokensLength) as [Hl | _];
    [| discriminate].
  cbn [negb]. fold tokens.
  destruct (Atoi (field tokens 0)) as [asn [e |]]; [discriminate |].
  destruct (ParseCIDR (field tokens 2)) as [rg [e |]]; [discriminate |].
  intros _. repeat split. exact Hl.
Qed.

Lemma LookupASNs_line_inv (raw : string) (re : Response) :
  let tokens := map TrimSpace (Split raw "|") in
  LookupASNs_line raw = inr re ->
  List.length (Split raw "|") = 5 /\ snd (Atoi (field tokens 0)) = None.
Proof.
  intros tokens. unfold LookupASNs_line.
  destruct (HasPrefix raw "Error: "); [discriminate |].
  destruct (Nat.eqb_spec (List.length (Split raw "|")) netcatASNTokensLength) as [Hl | _];
    [| discriminate].
  cbn [negb]. fold tokens.
  destruct (Atoi (field tokens 0)) as [asn [e |]]; [discriminate |].
  intros _. split; [exact Hl | reflexivity].
Qed.

(** The write phase when all its flushes succeed: every query has been
    sent with its line terminator, in order. *)
Lemma writeAll_flushed_state (qs : list string) (c : Conn) :
  flushed (List.length qs) c ->
  writeAll qs c
  = (None, mkConn (sent c ++ map (fun q => (q ++ ncEOL)%string) qs)%list
             (skipn (List.length qs) (flushes c)) (incoming c)).
Proof.
  revert c. induction qs as [| q qs IH]; intros c Hf.
  - cbn. rewrite app_nil_r. destruct c; reflexivity.
  - unfold flushed in Hf. cbn [writeAll]. unfold writeLine.
    destruct (flushes c) as [| [e |] fl] eqn:Hfl.
    + rewrite IH by (unfold flushed; cbn; rewrite firstn_nil; constructor).
      cbn. rewrite <- app_assoc, skipn_nil. reflexivity.
    + cbn in Hf. inversion Hf as [| ? ? Habs ?]. discriminate Habs.
    + rewrite IH by (unfold flushed; cbn in *; inversion Hf; assumption).
      cbn. rewrite <- app_assoc. reflexivity.
Qed.

(** The write phase up to the first flush that fails. *)
Lemma writeAll_flush_error (qs : list string) (c : Conn) (k : nat) (e : error)
  (fl : list (option error)) :
  flushes c = (repeat None k ++ Some e :: fl)%list ->
  k < List.length qs ->
  writeAll qs c
  = (Some e, mkConn (sent c ++ map (fun q => (q ++ ncEOL)%string) (firstn k qs))%list fl (incoming c)).
Proof.
  revert c k. induction qs as [| q qs IH]; intros c k Hfl Hk; [cbn in Hk; lia |].
  cbn [writeAll]. unfold writeLine. rewrite Hfl.
  destruct k as [| k]; cbn [repeat app].
  - cbn. rewrite app_nil_r. reflexivity.
  - rewrite (IH _ k) by (cbn in *; first [reflexivity | lia]).
    cbn. rewrite <- app_assoc. reflexivity.
Qed.

Lemma readLoop_finished (line : string -> error + Response) (lines : list string)
  (resp : slice) (err : option error) :
  readLoop line lines true resp err = (elems resp, err, lines).
Proof. destruct lines; reflexivity. Qed.

Lemma append_room (resp : slice) (re : Response) :
  len resp < cap resp ->
  append resp re = mkSlice (elems resp ++ [re])%list (cap resp)
  /\ len (append resp re) = S (len resp)
  /\ cap (append resp re) = cap resp.
Proof.
  intro H. unfold append.
  destruct (Nat.ltb_spec (len resp) (cap resp)); [| lia].
  unfold len. cbn. rewrite length_app. cbn. repeat split. lia.
Qed.

(** The loop never returns more records than the capacity it started
    with. *)
Lemma readLoop_bound (line : string -> error + Response) :
  forall (lines : list string) (resp : slice) (err : option error),
    len resp < cap resp ->
    List.length (fst (fst (readLoop line lines false resp err))) <= cap resp.
Proof.
  induction lines as [| raw rest IH]; intros resp err Hlt.
  - cbn. unfold len in Hlt. lia.
  - cbn [readLoop]. destruct (line raw) as [e | re].
    + cbn. unfold len in Hlt. lia.
    + destruct (append_room resp re Hlt) as (Ha & Hl & Hc).
      destruct (Nat.eqb_spec (len (append resp re)) (cap (append resp re))) as [Heq | Hne].
      * rewrite readLoop_finished. cbn [fst]. fold (len (append resp re)). lia.
      * rewrite <- Hc. apply IH. lia.
Qed.

(** The loop on as many lines as there is room for, all of them giving a
    record: the records are appended and the lines after them stay unread. *)
Lemma readLoop_full (line : string -> error + Response) :
  forall (lines : list string) (recs : list Response) (rest : list string) (resp : slice)
         (err : option error),
    Forall2 (fun raw re => line raw = inr re) lines recs ->
    lines <> [] ->
    len resp + List.length lines = cap resp ->
    readLoop line (lines ++ rest)%list false resp err
    = ((elems resp ++ recs)%list, None, rest).
Proof.
  induction lines as [| raw lines IH]; intros recs rest resp err HF Hne Hcap;
    [contradiction |].
  inversion HF as [| ? re ? recs' Hre HF']; subst.
  cbn [app readLoop]. rewrite Hre.
  cbn [List.length] in Hcap.
  destruct (append_room resp re ltac:(lia)) as (Ha & Hl & Hc).
  destruct lines as [| raw' lines'].
  - inversion HF'; subst.
    replace (Nat.eqb (len (append resp re)) (cap (append resp re))) with true
      by (symmetry; apply Nat.eqb_eq; cbn in Hcap; lia).
    rewrite readLoop_finished, Ha. reflexivity.
  - replace (Nat.eqb (len (append resp re)) (cap (append resp re))) with false
      by (symmetry; apply Nat.eqb_neq; cbn in Hcap; lia).
    rewrite (IH recs' rest (append resp re) None HF'); [| discriminate | cbn in *; lia].
    rewrite Ha. cbn [elems]. rewrite <- app_assoc. reflexivity.
Qed.

(** The loop on lines that give a record followed by a line that aborts,
    with room left: the records so far, the error, and the lines after the
    aborting one unread. *)
Lemma readLoop_abort_after (line : string -> error + Response) :
  forall (lines : list string) (recs : list Response) (bad : string) (rest : list string)
         (e : error) (resp : slice) (err : option error),
    Forall2 (fun raw re => line raw = inr re) lines recs ->
    line bad = inl e ->
    len resp + List.length lines < cap resp ->
    readLoop line (lines ++ bad :: rest)%list false resp err
    = ((elems resp ++ recs)%list, Some e, rest).
Proof.
  induction lines as [| raw lines IH]; intros recs bad rest e resp err HF Hbad Hcap.
  - inversion HF; subst. cbn [app readLoop]. rewrite Hbad, app_nil_r. reflexivity.
  - inversion HF as [| ? re ? recs' Hre HF']; subst.
    cbn [app readLoop]. rewrite Hre.
    cbn [List.length] in Hcap.
    destruct (append_room resp re ltac:(lia)) as (Ha & Hl & Hc).
    replace (Nat.eqb (len (append resp re)) (cap (append resp re))) with false
      by (symmetry; apply Nat.eqb_neq; lia).
    rewrite (IH recs' bad rest e (append resp re) None HF' Hbad) by lia.
    rewrite Ha. cbn [elems]. rewrite <- app_assoc. reflexivity.
Qed.

(** What the loop returns starts with the records it was entered with. *)
Lemma readLoop_prefix (line : string -> error + Response) :
  forall (lines : list string) (finished : bool) (resp : slice) (err : option error),
  exists more,
    fst (fst (readLoop line lines finished resp err)) = (elems resp ++ more)%list.
Proof.
  induction lines as [| raw rest IH]; intros finished resp err.
  - exists []. destruct finished; cbn; now rewrite app_nil_r.
  - destruct finished; [exists []; cbn; now rewrite app_nil_r |].
    cbn [readLoop]. destruct (line raw) as [e | re].
    + exists []. cbn. now rewrite app_nil_r.
    + destruct (IH (Nat.eqb (len (append resp re)) (cap (append resp re)))
                  (append resp re) None) as [more Hm].
      exists (re :: more). rewrite Hm.
      unfold append. destruct (Nat.ltb (len resp) (cap resp)); cbn;
        rewrite <- app_assoc; reflexivity.
Qed.

(** A batch of one query returns one record and a nil error, or no
    record. *)
Lemma batch_single (line : string -> error + Response) (q : string) (c : Conn) :
  (exists re, fst (batch line [q] c) = ([re], None))
  \/ (exists err, fst (batch line [q] c) = ([], err)).
Proof.
  unfold batch. cbn [writeAll].
  destruct (writeLine q c) as [[e |] c']; [right; eexists; reflexivity |].
  destruct (incoming c') as [| raw rest]; [right; eexists; reflexivity |].
  cbn [readLoop]. destruct (line raw) as [e | re]; [right; eexists; reflexivity |].
  left. exists re. unfold make, append, len. cbn. rewrite readLoop_finished. reflexivity.
Qed.

(** The outcome of the write phase does not depend on the text of the
    queries. *)
Lemma writeAll_same_length (qs qs' : list string) :
  List.length qs = List.length qs' ->
  forall c c' : Conn,
    flushes c = flushes c' -> incoming c = incoming c' ->
    fst (writeAll qs c) = fst (writeAll qs' c')
    /\ flushes (snd (writeAll qs c)) = flushes (snd (writeAll qs' c'))
    /\ incoming (snd (writeAll qs c)) = incoming (snd (writeAll qs' c')).
Proof.
  revert qs'. induction qs as [| q qs IH]; intros [| q' qs'] Hl c c' Hf Hi;
    try discriminate Hl.
  - cbn. auto.
  - cbn [writeAll]. unfold writeLine. rewrite <- Hf, <- Hi.
    destruct (flushes c) as [| [e |] fl]; cbn [fst snd].
    + apply IH; [now injection Hl | reflexivity | reflexivity].
    + cbn. auto.
    + apply IH; [now injection Hl | reflexivity | reflexivity].
Qed.

End SessionMore.

Section SessionBatches.
Context {E : Externals}.
Import whoisClient.

Lemma batch_bound (line : string -> error + Response) (qs : list string) (c : Conn) :
  qs <> [] -> List.length (fst (fst (batch line qs c))) <= List.length qs.
Proof.
  intro Hne. unfold batch.
  destruct (writeAll qs c) as [[e |] c']; [cbn; lia |].
  assert (Hlt : len (make 0 (List.length qs)) < cap (make 0 (List.length qs))).
  { unfold make, len. cbn. destruct qs; [contradiction | cbn; lia]. }
  pose proof (readLoop_bound line (incoming c') _ None Hlt) as Hb.
  destruct (readLoop line (incoming c') false (make 0 (List.length qs)) None)
    as [[rs er] rest].
  cbn in *. exact Hb.
Qed.

Lemma batch_full (line : string -> error + Response) (qs : list string) (c : Conn)
  (lines : list string) (recs : list Response) (rest : list string) :
  qs <> [] ->
  flushed (List.length qs) c ->
  incoming c = (lines ++ rest)%list ->
  List.length lines = List.length qs ->
  Forall2 (fun raw re => line raw = inr re) lines recs ->
  batch line qs c
  = ((recs, None),
     mkConn (sent c ++ map (fun q => (q ++ ncEOL)%string) qs)%list
       (skipn (List.length qs) (flushes c)) rest).
Proof.
  intros Hne Hf Hi Hl HF. unfold batch.
  rewrite (writeAll_flushed_state qs c Hf). cbn [incoming sent flushes]. rewrite Hi.
  rewrite (readLoop_full line lines recs rest (make 0 (List.length qs)) None HF).
  - reflexivity.
  - destruct lines; [destruct qs; [contradiction | discriminate Hl] | discriminate].
  - unfold make, len. cbn. exact Hl.
Qed.

Lemma batch_abort (line : string -> error + Response) (qs : list string) (c : Conn)
  (lines : list string) (recs : list Response) (bad : string) (rest : list string)
  (e : error) :
  flushed (List.length qs) c ->
  incoming c = (lines ++ bad :: rest)%list ->
  List.length lines < List.length qs ->
  Forall2 (fun raw re => line raw = inr re) lines recs ->
  line bad = inl e ->
  batch line qs c
  = ((recs, Some e),
     mkConn (sent c ++ map (fun q => (q ++ ncEOL)%string) qs)%list
       (skipn (List.length qs) (flushes c)) rest).
Proof.
  intros Hf Hi Hl HF Hbad. unfold batch.
  rewrite (writeAll_flushed_state qs c Hf). cbn [incoming sent flushes]. rewrite Hi.
  rewrite (readLoop_abort_after line lines recs bad rest e (make 0 (List.length qs)) None
             HF Hbad).
  - reflexivity.
  - unfold make, len. cbn. exact Hl.
Qed.

Lemma batch_flush_error (line : string -> error + Response) (qs : list string) (c : Conn)
  (k : nat) (e : error) (fl : list (option error)) :
  flushes c = (repeat None k ++ Some e :: fl)%list ->
  k < List.length qs ->
  batch line qs c
  = (([], Some e),
     mkConn (sent c ++ map (fun q => (q ++ ncEOL)%string) (firstn k qs))%list fl (incoming c)).
Proof.
  intros Hfl Hk. unfold batch. rewrite (writeAll_flush_error qs c k e fl Hfl Hk).
  reflexivity.
Qed.

Lemma batch_same_length (line : string -> error + Response) (qs qs' : list string)
  (c : Conn) :
  List.length qs = List.length qs' ->
  fst (batch line qs c) = fst (batch line qs' c)
  /\ incoming (snd (batch line qs c)) = incoming (snd (batch line qs' c)).
Proof.
  intro Hl. unfold batch.
  destruct (writeAll_same_length qs qs' Hl c c eq_refl eq_refl) as (H1 & H2 & H3).
  destruct (writeAll qs c) as [o c1]. destruct (writeAll qs' c) as [o' c2].
  cbn [fst snd] in H1, H2, H3. subst o'. rewrite Hl.
  destruct o as [e |]; [cbn; auto |].
  rewrite H3.
  destruct (readLoop line (incoming c2) false (make 0 (List.length qs')) None)
    as [r rest].
  cbn. auto.
Qed.

Lemma batch_empty_reads (line : string -> error + Response) (c : Conn)
  (raw : string) (rest : list string) (re : Response) :
  incoming c = raw :: rest ->
  line raw = inr re ->
  exists more, fst (fst (batch line [] c)) = re :: more.
Proof.
  intros Hi Hre. unfold batch. cbn [writeAll List.length]. rewrite Hi.
  cbn [readLoop]. rewrite Hre.
  destruct (readLoop_prefix line rest
              (Nat.eqb (len (append (make 0 0) re)) (cap (append (make 0 0) re)))
              (append (make 0 0) re) None) as [more Hm].
  exists more.
  destruct (readLoop line rest _ (append (make 0 0) re) None) as [[rs er] rest'].
  cbn [fst] in Hm |- *. rewrite Hm. reflexivity.
Qed.

Lemma flushed_skipn (n1 n2 : nat) (c : Conn) (s : list string) (i : list string) :
  flushed (n1 + n2) c -> flushed n2 (mkConn s (skipn n1 (flushes c)) i).
Proof.
  unfold flushed. cbn [flushes]. generalize (flushes c). clear c.
  induction n1 as [| n1 IH]; intros l H; [exact H |].
  destruct l as [| o l]; cbn in *.
  - rewrite firstn_nil. constructor.
  - apply IH. inversion H; assumption.
Qed.

Lemma flushed_weaken (n1 n2 : nat) (c : Conn) : flushed (n1 + n2) c -> flushed n1 c.
Proof.
  unfold flushed. generalize (flushes c). clear c.
  induction n1 as [| n1 IH]; intros l H; [constructor |].
  destruct l as [| o l]; cbn in *; [constructor |].
  inversion H; subst. constructor; [reflexivity | apply IH; assumption].
Qed.

End SessionBatches.

(* ================================================================= *)
(** ** The allocation date *)

(** C8 as stated fails: the directory resolver does not tolerate a date
    that is neither empty nor a calendar date; both of its lookups return a
    parse error on the field "1998-00-00". *)
Lemma C8_counterexample :
  snd (ParseDate "1998-00-00") <> None
  /\ @LookupTXT Sample.world "AS64500.asn.cymru.com"
     = (["64500 | US | arin | 1998-00-00 | EXAMPLE-AS"], None)
  /\ fst (dnsClient.LookupASN (E := Sample.world) 64500)
     = Done (None, Some (Errorf2 "Could not parse date (%s): %s" "1998-00-00"
                           (TimeParseError "2006-01-02" "1998-00-00")))
  /\ @LookupTXT Sample.world "1.113.0.203.origin.asn.cymru.com"
     = (["64500 | 203.0.113.0/24 | US | arin | 1998-00-00"], None)
  /\ fst (dnsClient.LookupIP (E := Sample.world) (v4in6 203 0 113 1))
     = Done (None, Some (Errorf2 "Could not parse date (%s): %s" "1998-00-00"
                           (TimeParseError "2006-01-02" "1998-00-00"))).
Proof. split; [discriminate | repeat split]. Qed.

(** C8, amended.  Session resolver: the asn field and, in address mode,
    the range field are the only fields parsed strictly.  A line that passes
    the tests of the loop (field count, asn, range) gives its record whatever
    its country and date fields are; the allocation date is the parsed date,
    and the zero time when the field is empty or malformed.  A line whose asn
    field is no integer, or whose range field is no CIDR range, makes the
    batch return with the error of that parse and the records read so far.
    Directory resolver: an empty date field is accepted and leaves the zero
    time in the record; a date field that is neither empty nor a calendar
    date makes the lookup return a parse error.  [LookupASN] does not read
    the asn field (the record carries the asn that was asked for) and returns
    a parse error for a country code that does not resolve; [LookupIP]
    returns a parse error for an asn field that is no integer, for a country
    code that does not resolve and for a range that is no CIDR range. *)
Theorem C8_date_field {E : Externals} :
  (forall raw : string,
      let tokens := map TrimSpace (Split raw "|") in
      List.length (Split raw "|") = 7 ->
      snd (Atoi (field tokens 0)) = None ->
      snd (ParseCIDR (field tokens 2)) = None ->
      exists re : Response,
        whoisClient.LookupIPs_line raw = inr re
        /\ Allocated re = fst (ParseDate (field tokens 5))
        /\ (snd (ParseDate (field tokens 5)) <> None -> Allocated re = zeroTime))
  /\ (forall raw : string,
      let tokens := map TrimSpace (Split raw "|") in
      List.length (Split raw "|") = 5 ->
      snd (Atoi (field tokens 0)) = None ->
      exists re : Response,
        whoisClient.LookupASNs_line raw = inr re
        /\ Allocated re = fst (ParseDate (field tokens 3))
        /\ (snd (ParseDate (field tokens 3)) <> None -> Allocated re = zeroTime))
  /\ (forall (asn : Z) (txt : string) (others : list string),
      let values := map TrimSpace (Split txt "|") in
      LookupTXT (ASN_String asn ++ ".asn.cymru.com") = (txt :: others, None) ->
      List.length (Split txt "|") = 5 ->
      snd (NewCountryFromCode (field values 1)) = None ->
      field values 3 = "" ->
      exists re : Response,
        fst (dnsClient.LookupASN asn) = Done (Some re, None)
        /\ Allocated re = zeroTime
        /\ ASN re = asn)
  /\ (forall (asn : Z) (txt : string) (others : list string) (e : error),
      let values := map TrimSpace (Split txt "|") in
      LookupTXT (ASN_String asn ++ ".asn.cymru.com") = (txt :: others, None) ->
      List.length (Split txt "|") = 5 ->
      snd (NewCountryFromCode (field values 1)) = None ->
      field values 3 <> "" ->
      snd (ParseDate (field values 3)) = Some e ->
      fst (dnsClient.LookupASN asn)
      = Done (None, Some (Errorf2 "Could not parse date (%s): %s" (field values 3) e)))
  /\ (forall (ip : net_IP) (name txt : string) (others : list string)
             (err : option error) (a : Response) (l : list string),
      let values := map TrimSpace (Split txt "|") in
      getLookupName ip = Done (name, err) ->
      LookupTXT name = (txt :: others, None) ->
      List.length (Split txt "|") = 5 ->
      snd (Atoi (field values 0)) = None ->
      snd (NewCountryFromCode (field values 2)) = None ->
      snd (ParseCIDR (field values 1)) = None ->
      field values 4 = "" ->
      dnsClient.LookupASN (fst (Atoi (field values 0))) = (Done (Some a, None), l) ->
      exists re : Response,
        fst (dnsClient.LookupIP ip) = Done (Some re, None)
        /\ Allocated re = zeroTime)
  /\ (forall (ip : net_IP) (name txt : string) (others : list string)
             (err : option error) (e : error),
      let values := map TrimSpace (Split txt "|") in
      getLookupName ip = Done (name, err) ->
      LookupTXT name = (txt :: others, None) ->
      List.length (Split txt "|") = 5 ->
      snd (Atoi (field values 0)) = None ->
      snd (NewCountryFromCode (field values 2)) = None ->
      snd (ParseCIDR (field values 1)) = None ->
      field values 4 <> "" ->
      snd (ParseDate (field values 4)) = Some e ->
      fst (dnsClient.LookupIP ip)
      = Done (None, Some (Errorf2 "Could not parse date (%s): %s" (field values 4) e)))
  /\ (forall (ips : list net_IP) (c : whoisClient.Conn) (lines : list string)
             (recs : list Response) (bad : string) (rest : list string) (e : error),
      let tokens := map TrimSpace (Split bad "|") in
      whoisClient.flushed (List.length ips) c ->
      whoisClient.incoming c = (lines ++ bad :: rest)%list ->
      List.length lines < List.length ips ->
      Forall2 (fun raw re => whoisClient.LookupIPs_line raw = inr re) lines recs ->
      HasPrefix bad "Error: " = false ->
      List.length (Split bad "|") = 7 ->
      snd (Atoi (field tokens 0)) = Some e ->
      whoisClient.LookupIPs_line bad = inl e
      /\ fst (whoisClient.LookupIPs ips c) = (recs, Some e))
  /\ (forall (ips : list net_IP) (c : whoisClient.Conn) (lines : list string)
             (recs : list Response) (bad : string) (rest : list string) (e : error),
      let tokens := map TrimSpace (Split bad "|") in
      whoisClient.flushed (List.length ips) c ->
      whoisClient.incoming c = (lines ++ bad :: rest)%list ->
      List.length lines < List.length ips ->
      Forall2 (fun raw re => whoisClient.LookupIPs_line raw = inr re) lines recs ->
      List.length (Split bad "|") = 7 ->
      snd (Atoi (field tokens 0)) = None ->
      snd (ParseCIDR (field tokens 2)) = Some e ->
      whoisClient.LookupIPs_line bad = inl e
      /\ fst (whoisClient.LookupIPs ips c) = (recs, Some e))
  /\ (forall (asns : list Z) (c : whoisClient.Conn) (lines : list string)
             (recs : list Response) (bad : string) (rest : list string) (e : error),
      let tokens := map TrimSpace (Split bad "|") in
      whoisClient.flushed (List.length asns) c ->
      whoisClient.incoming c = (lines ++ bad :: rest)%list ->
      List.length lines < List.length asns ->
      Forall2 (fun raw re => whoisClient.LookupASNs_line raw = inr re) lines recs ->
      HasPrefix bad "Error: " = false ->
      List.length (Split bad "|") = 5 ->
      snd (Atoi (field tokens 0)) = Some e ->
      whoisClient.LookupASNs_line bad = inl e
      /\ fst (whoisClient.LookupASNs asns c) = (recs, Some e))
  /\ (forall (asn : Z) (txt : string) (others : list string) (e : error),
      let values := map TrimSpace (Split txt "|") in
      LookupTXT (ASN_String asn ++ ".asn.cymru.com") = (txt :: others, None) ->
      List.length (Split txt "|") = 5 ->
      snd (NewCountryFromCode (field values 1)) = Some e ->
      fst (dnsClient.LookupASN asn)
      = Done (None, Some (Errorf2 "Could not parse CountryCode (%s): %s" (field values 1) e)))
  /\ (forall (ip : net_IP) (name txt : string) (others : list string)
             (err : option error) (e : error),
      let values := map TrimSpace (Split txt "|") in
      getLookupName ip = Done (name, err) ->
      LookupTXT name = (txt :: others, None) ->
      List.length (Split txt "|") = 5 ->
      snd (Atoi (field values 0)) = Some e ->
      fst (dnsClient.LookupIP ip)
      = Done (None, Some (Errorf2 "Could not parse ASN (%s): %s" (field values 0) e)))
  /\ (forall (ip : net_IP) (name txt : string) (others : list string)
             (err : option error) (e : error),
      let values := map TrimSpace (Split txt "|") in
      getLookupName ip = Done (name, err) ->
      LookupTXT name = (txt :: others, None) ->
      List.length (Split txt "|") = 5 ->
      snd (Atoi (field values 0)) = None ->
      snd (NewCountryFromCode (field values 2)) = Some e ->
      fst (dnsClient.LookupIP ip)
      = Done (None, Some (Errorf2 "Could not parse CountryCode (%s): %s" (field values 2) e)))
  /\ (forall (ip : net_IP) (name txt : string) (others : list string)
             (err : option error) (e : error),
      let values := map TrimSpace (Split txt "|") in
      getLookupName ip = Done (name, err) ->
      LookupTXT name = (txt :: others, None) ->
      List.length (Split txt "|") = 5 ->
      snd (Atoi (field values 0)) = None ->
      snd (NewCountryFromCode (field values 2)) = None ->
      snd (ParseCIDR (field values 1)) = Some e ->
      fst (dnsClient.LookupIP ip)
      = Done (None, Some (Errorf2 "Could not parse Range (%s): %s" (field values 1) e))).
Proof.
  repeat apply conj.
  - intros raw tokens Hl Ha Hc.
    rewrite (LookupIPs_line_ok raw (numeric_not_marker raw Ha) Hl Ha Hc).
    eexists. split; [reflexivity |]. split; [reflexivity |].
    cbn [Allocated]. apply ParseDate_error_zero.
  - intros raw tokens Hl Ha.
    rewrite (LookupASNs_line_ok raw (numeric_not_marker raw Ha) Hl Ha).
    eexists. split; [reflexivity |]. split; [reflexivity |].
    cbn [Allocated]. apply ParseDate_error_zero.
  - intros asn txt others values HT Hl Hc Hd.
    rewrite (dns_LookupASN_record asn txt others HT Hl Hc (or_introl Hd)).
    eexists. split; [reflexivity |]. split; [| reflexivity].
    cbn [Allocated]. fold values. rewrite Hd. reflexivity.
  - intros asn txt others e values HT Hl Hc Hne Hd.
    rewrite (dns_LookupASN_bad_date asn txt others e HT Hl Hc Hne Hd). reflexivity.
  - intros ip name txt others err a l values HN HT Hl Ha Hc Hr Hd HA.
    rewrite (dns_LookupIP_empty_date ip name txt others err a l HN HT Hl Ha Hc Hr Hd HA).
    eexists. split; reflexivity.
  - intros ip name txt others err e values HN HT Hl Ha Hc Hr Hne Hd.
    rewrite (dns_LookupIP_bad_date ip name txt others err e HN HT Hl Ha Hc Hr Hne Hd).
    reflexivity.
  - intros ips c lines recs bad rest e tokens Hf Hi Hlt HF Hp Hl Ha.
    pose proof (LookupIPs_line_bad_asn bad e Hp Hl Ha) as Hbad.
    split; [exact Hbad |]. unfold whoisClient.LookupIPs.
    rewrite (batch_abort _ (map IP_String ips) c lines recs bad rest e);
      rewrite ?length_map; try assumption. reflexivity.
  - intros ips c lines recs bad rest e tokens Hf Hi Hlt HF Hl Ha Hr.
    pose proof (LookupIPs_line_bad_range bad e (numeric_not_marker bad Ha) Hl Ha Hr) as Hbad.
    split; [exact Hbad |]. unfold whoisClient.LookupIPs.
    rewrite (batch_abort _ (map IP_String ips) c lines recs bad rest e);
      rewrite ?length_map; try assumption. reflexivity.
  - intros asns c lines recs bad rest e tokens Hf Hi Hlt HF Hp Hl Ha.
    pose proof (LookupASNs_line_bad_asn bad e Hp Hl Ha) as Hbad.
    split; [exact Hbad |]. unfold whoisClient.LookupASNs.
    rewrite (batch_abort _ (map ASN_String asns) c lines recs bad rest e);
      rewrite ?length_map; try assumption. reflexivity.
  - intros asn txt others e values HT Hl Hc.
    rewrite (dns_LookupASN_bad_country asn txt others e HT Hl Hc). reflexivity.
  - intros ip name txt others err e values HN HT Hl Ha.
    rewrite (dns_LookupIP_bad_asn ip name txt others err e HN HT Hl Ha). reflexivity.
  - intros ip name txt others err e values HN HT Hl Ha Hc.
    rewrite (dns_LookupIP_bad_country ip name txt others err e HN HT Hl Ha Hc). reflexivity.
  - intros ip name txt others err e values HN HT Hl Ha Hc Hr.
    rewrite (dns_LookupIP_bad_range ip name txt others err e HN HT Hl Ha Hc Hr). reflexivity.
Qed.

Lemma C8_date_field_witness :
  ((exists re : @Response Sample.world,
      whoisClient.LookupIPs_line Sample.line_203_0_113_1 = inr re
      /\ Allocated re = fst (ParseDate "")
      /\ (snd (ParseDate "") <> None -> Allocated re = zeroTime))
   /\ (exists re : @Response Sample.world,
      whoisClient.LookupASNs_line Sample.line_AS64500 = inr re
      /\ Allocated re = fst (ParseDate "")
      /\ (snd (ParseDate "") <> None -> Allocated re = zeroTime))
   /\ (exists re : @Response Sample.world,
      fst (dnsClient.LookupASN 64501) = Done (Some re, None)
      /\ Allocated re = zeroTime
      /\ ASN re = 64501%Z)
   /\ fst (dnsClient.LookupASN (E := Sample.world) 64500)
      = Done (None, Some (Errorf2 "Could not parse date (%s): %s" "1998-00-00"
                            (TimeParseError "2006-01-02" "1998-00-00")))
   /\ (exists re : @Response Sample.world,
      fst (dnsClient.LookupIP (v4in6 198 51 100 1)) = Done (Some re, None)
      /\ Allocated re = zeroTime)
   /\ fst (dnsClient.LookupIP (E := Sample.world) (v4in6 203 0 113 1))
      = Done (None, Some (Errorf2 "Could not parse date (%s): %s" "1998-00-00"
                            (TimeParseError "2006-01-02" "1998-00-00"))))
  /\ ((whoisClient.LookupIPs_line (E := Sample.world) Sample.line_bad_asn
       = inl (NumError "Atoi" "NA" false)
       /\ fst (whoisClient.LookupIPs (E := Sample.world)
                 [v4in6 8 8 4 4; v4in6 192 0 2 1]
                 (Sample.conn [Sample.line_8_8_4_4; Sample.line_bad_asn; Sample.line_8_8_8_8]))
          = ([Sample.rec_8_8_4_4], Some (NumError "Atoi" "NA" false)))
      /\ (whoisClient.LookupIPs_line (E := Sample.world) Sample.line_bad_range
          = inl (Foreign "invalid CIDR address: 192.0.2.0/33")
          /\ fst (whoisClient.LookupIPs (E := Sample.world)
                    [v4in6 8 8 4 4; v4in6 192 0 2 3]
                    (Sample.conn [Sample.line_8_8_4_4; Sample.line_bad_range;
                                  Sample.line_8_8_8_8]))
             = ([Sample.rec_8_8_4_4], Some (Foreign "invalid CIDR address: 192.0.2.0/33")))
      /\ (whoisClient.LookupASNs_line (E := Sample.world) Sample.line_AS_bad_asn
          = inl (NumError "Atoi" "NA" false)
          /\ fst (whoisClient.LookupASNs (E := Sample.world) [15169%Z; 64498%Z]
                    (Sample.conn [Sample.line_AS15169; Sample.line_AS_bad_asn]))
             = ([Sample.rec_AS15169], Some (NumError "Atoi" "NA" false))))
  /\ ((exists re : @Response Sample.strictWorld,
         fst (dnsClient.LookupASN 64499) = Done (Some re, None)
         /\ Allocated re = zeroTime
         /\ ASN re = 64499%Z)
      /\ fst (dnsClient.LookupASN (E := Sample.strictWorld) 64498)
         = Done (None, Some (Errorf2 "Could not parse CountryCode (%s): %s" "ZZ"
                               (Foreign "unknown country code: ZZ")))
      /\ fst (dnsClient.LookupIP (E := Sample.strictWorld) (v4in6 192 0 2 1))
         = Done (None, Some (Errorf2 "Could not parse ASN (%s): %s" "NA"
                               (NumError "Atoi" "NA" false)))
      /\ fst (dnsClient.LookupIP (E := Sample.strictWorld) (v4in6 192 0 2 2))
         = Done (None, Some (Errorf2 "Could not parse CountryCode (%s): %s" "ZZ"
                               (Foreign "unknown country code: ZZ")))
      /\ fst (dnsClient.LookupIP (E := Sample.strictWorld) (v4in6 192 0 2 3))
         = Done (None, Some (Errorf2 "Could not parse Range (%s): %s" "192.0.2.0/33"
                               (Foreign "invalid CIDR address: 192.0.2.0/33")))).
Proof.
  pose proof (@C8_date_field Sample.world)
    as (H1 & H2 & H3 & H4 & H5 & H6 & H7 & H8 & H9 & _).
  pose proof (@C8_date_field Sample.strictWorld)
    as (_ & _ & S3 & _ & _ & _ & _ & _ & _ & S10 & S11 & S12 & S13).
  split; [| split]; [repeat apply conj | split; [| split] | repeat apply conj].
  - exact (H1 Sample.line_203_0_113_1 eq_refl eq_refl eq_refl).
  - exact (H2 Sample.line_AS64500 eq_refl eq_refl).
  - exact (H3 64501%Z "64501 | DE | ripencc |  | EXAMPLE-NET" []
              eq_refl eq_refl eq_refl eq_refl).
  - refine (H4 64500%Z "64500 | US | arin | 1998-00-00 | EXAMPLE-AS" []
              (TimeParseError "2006-01-02" "1998-00-00") eq_refl eq_refl eq_refl _ eq_refl).
    discriminate.
  - exact (H5 (v4in6 198 51 100 1) "1.100.51.198.origin.asn.cymru.com"
              "64501 | 198.51.100.0/24 | DE | ripencc | " [] None
              (Sample.response [] 64501 None ("DE", "Germany") "ripencc" zeroTime
                 "EXAMPLE-NET")
              ["AS64501.asn.cymru.com"]
              eq_refl eq_refl eq_refl eq_refl eq_refl eq_refl eq_refl eq_refl).
  - refine (H6 (v4in6 203 0 113 1) "1.113.0.203.origin.asn.cymru.com"
              "64500 | 203.0.113.0/24 | US | arin | 1998-00-00" [] None
              (TimeParseError "2006-01-02" "1998-00-00")
              eq_refl eq_refl eq_refl eq_refl eq_refl eq_refl _ eq_refl).
    discriminate.
  - refine (H7 [v4in6 8 8 4 4; v4in6 192 0 2 1]
              (Sample.conn [Sample.line_8_8_4_4; Sample.line_bad_asn; Sample.line_8_8_8_8])
              [Sample.line_8_8_4_4] [Sample.rec_8_8_4_4] Sample.line_bad_asn
              [Sample.line_8_8_8_8] (NumError "Atoi" "NA" false)
              _ eq_refl _ _ eq_refl eq_refl eq_refl).
    + constructor.
    + cbn. lia.
    + constructor; [reflexivity | constructor].
  - refine (H8 [v4in6 8 8 4 4; v4in6 192 0 2 3]
              (Sample.conn [Sample.line_8_8_4_4; Sample.line_bad_range; Sample.line_8_8_8_8])
              [Sample.line_8_8_4_4] [Sample.rec_8_8_4_4] Sample.line_bad_range
              [Sample.line_8_8_8_8] (Foreign "invalid CIDR address: 192.0.2.0/33")
              _ eq_refl _ _ eq_refl eq_refl eq_refl).
    + constructor.
    + cbn. lia.
    + constructor; [reflexivity | constructor].
  - refine (H9 [15169%Z; 64498%Z]
              (Sample.conn [Sample.line_AS15169; Sample.line_AS_bad_asn])
              [Sample.line_AS15169] [Sample.rec_AS15169] Sample.line_AS_bad_asn
              [] (NumError "Atoi" "NA" false)
              _ eq_refl _ _ eq_refl eq_refl eq_refl).
    + constructor.
    + cbn. lia.
    + constructor; [reflexivity | constructor].
  - exact (S3 64499%Z "NA | US | arin |  | EXAMPLE-NA" [] eq_refl eq_refl eq_refl eq_refl).
  - exact (S10 64498%Z "NA | ZZ | arin | 2001-01-01 | EXAMPLE-ZZ" []
             (Foreign "unknown country code: ZZ") eq_refl eq_refl eq_refl).
  - exact (S11 (v4in6 192 0 2 1) "1.2.0.192.origin.asn.cymru.com"
             "NA | 192.0.2.0/24 | US | arin | 2001-01-01" [] None
             (NumError "Atoi" "NA" false) eq_refl eq_refl eq_refl eq_refl).
  - exact (S12 (v4in6 192 0 2 2) "2.2.0.192.origin.asn.cymru.com"
             "64498 | 192.0.2.0/24 | ZZ | arin | 2001-01-01" [] None
             (Foreign "unknown country code: ZZ") eq_refl eq_refl eq_refl eq_refl eq_refl).
  - exact (S13 (v4in6 192 0 2 3) "3.2.0.192.origin.asn.cymru.com"
             "64498 | 192.0.2.0/33 | US | arin | 2001-01-01" [] None
             (Foreign "invalid CIDR address: 192.0.2.0/33")
             eq_refl eq_refl eq_refl eq_refl eq_refl eq_refl).
Defined.

(** X11: a line of the session gives a record exactly when it has the
    field count of the mode, its first field is an integer and, in address
    mode, its third field is a range in CIDR form; the record is then made of
    the trimmed fields, with the country and the date taken as they come. *)
Theorem X11_session_line_accepted {E : Externals} (raw : string) (re : Response) :
  let tokens := map TrimSpace (Split raw "|") in
  (whoisClient.LookupIPs_line raw = inr re
   <-> List.length (Split raw "|") = 7
       /\ snd (Atoi (field tokens 0)) = None
       /\ snd (ParseCIDR (field tokens 2)) = None
       /\ re = mkResponse (ParseIP (field tokens 1)) (fst (Atoi (field tokens 0)))
                 (fst (ParseCIDR (field tokens 2)))
                 (fst (NewCountryFromCode (field tokens 3)))
                 (field tokens 4) (fst (ParseDate (field tokens 5)))
                 (NewName (field tokens 6)))
  /\ (whoisClient.LookupASNs_line raw = inr re
      <-> List.length (Split raw "|") = 5
          /\ snd (Atoi (field tokens 0)) = None
          /\ re = mkResponse [] (fst (Atoi (field tokens 0))) None
                    (fst (NewCountryFromCode (field tokens 1)))
                    (field tokens 2) (fst (ParseDate (field tokens 3)))
                    (NewName (field tokens 4))).
Proof.
  intro tokens. split; split.
  - intro H. destruct (LookupIPs_line_inv raw re H) as (Hl & Ha & Hc).
    repeat split; try assumption.
    rewrite (LookupIPs_line_ok raw (numeric_not_marker raw Ha) Hl Ha Hc) in H.
    now injection H.
  - intros (Hl & Ha & Hc & ->).
    exact (LookupIPs_line_ok raw (numeric_not_marker raw Ha) Hl Ha Hc).
  - intro H. destruct (LookupASNs_line_inv raw re H) as (Hl & Ha).
    repeat split; try assumption.
    rewrite (LookupASNs_line_ok raw (numeric_not_marker raw Ha) Hl Ha) in H.
    now injection H.
  - intros (Hl & Ha & ->).
    exact (LookupASNs_line_ok raw (numeric_not_marker raw Ha) Hl Ha).
Qed.

(** X12: a session batch of at least one input never returns more records
    than it has inputs. *)
Theorem X12_session_batch_bound {E : Externals} :
  (forall (ips : list net_IP) (c : whoisClient.Conn),
      ips <> [] ->
      List.length (fst (fst (whoisClient.LookupIPs ips c))) <= List.length ips)
  /\ (forall (asns : list Z) (c : whoisClient.Conn),
      asns <> [] ->
      List.length (fst (fst (whoisClient.LookupASNs asns c))) <= List.length asns).
Proof.
  split; intros xs c Hne.
  - unfold whoisClient.LookupIPs.
    rewrite <- (length_map IP_String xs). apply batch_bound.
    destruct xs; [contradiction | discriminate].
  - unfold whoisClient.LookupASNs.
    rewrite <- (length_map ASN_String xs). apply batch_bound.
    destruct xs; [contradiction | discriminate].
Qed.

Lemma X12_session_batch_bound_witness :
  List.length (fst (fst (whoisClient.LookupIPs (E := Sample.world) [v4in6 8 8 4 4]
                           (Sample.conn [Sample.line_8_8_4_4; Sample.line_8_8_8_8]))))
  <= 1.
Proof.
  apply (proj1 (@X12_session_batch_bound Sample.world) [v4in6 8 8 4 4]).
  discriminate.
Defined.

(** X13: a session batch of N >= 1 inputs whose flushes succeed and whose
    next N lines all give a record returns these N records in the order of the
    lines and a nil error; it has sent one line per input, the text of the
    input followed by CR LF, and the lines after the N-th stay unread on the
    connection. *)
Theorem X13_session_batch_complete {E : Externals} :
  (forall (ips : list net_IP) (c : whoisClient.Conn) (lines : list string)
          (recs : list Response) (rest : list string),
      ips <> [] ->
      whoisClient.flushed (List.length ips) c ->
      whoisClient.incoming c = (lines ++ rest)%list ->
      List.length lines = List.length ips ->
      Forall2 (fun raw re => whoisClient.LookupIPs_line raw = inr re) lines recs ->
      whoisClient.LookupIPs ips c
      = ((recs, None),
         whoisClient.mkConn
           (whoisClient.sent c
              ++ map (fun ip => (IP_String ip ++ whoisClient.ncEOL)%string) ips)%list
           (skipn (List.length ips) (whoisClient.flushes c)) rest))
  /\ (forall (asns : list Z) (c : whoisClient.Conn) (lines : list string)
          (recs : list Response) (rest : list string),
      asns <> [] ->
      whoisClient.flushed (List.length asns) c ->
      whoisClient.incoming c = (lines ++ rest)%list ->
      List.length lines = List.length asns ->
      Forall2 (fun raw re => whoisClient.LookupASNs_line raw = inr re) lines recs ->
      whoisClient.LookupASNs asns c
      = ((recs, None),
         whoisClient.mkConn
           (whoisClient.sent c
              ++ map (fun asn => (ASN_String asn ++ whoisClient.ncEOL)%string) asns)%list
           (skipn (List.length asns) (whoisClient.flushes c)) rest)).
Proof.
  split; intros xs c lines recs rest Hne Hf Hi Hl HF.
  - unfold whoisClient.LookupIPs.
    rewrite (batch_full _ (map IP_String xs) c lines recs rest);
      rewrite ?length_map, ?map_map; try assumption; [reflexivity |].
    destruct xs; [contradiction | discriminate].
  - unfold whoisClient.LookupASNs.
    rewrite (batch_full _ (map ASN_String xs) c lines recs rest);
      rewrite ?length_map, ?map_map; try assumption; [reflexivity |].
    destruct xs; [contradiction | discriminate].
Qed.

Lemma X13_session_batch_complete_witness :
  whoisClient.LookupIPs (E := Sample.world) [v4in6 8 8 4 4; v4in6 8 8 8 8]
    (Sample.conn [Sample.line_8_8_4_4; Sample.line_8_8_8_8; Sample.line_203_0_113_1])
  = (([Sample.rec_8_8_4_4; Sample.rec_8_8_8_8], None),
     whoisClient.mkConn ["8.8.4.4" ++ whoisClient.ncEOL; "8.8.8.8" ++ whoisClient.ncEOL] []
       [Sample.line_203_0_113_1]).
Proof.
  apply (proj1 (@X13_session_batch_complete Sample.world)
           [v4in6 8 8 4 4; v4in6 8 8 8 8]
           (Sample.conn [Sample.line_8_8_4_4; Sample.line_8_8_8_8; Sample.line_203_0_113_1])
           [Sample.line_8_8_4_4; Sample.line_8_8_8_8]
           [Sample.rec_8_8_4_4; Sample.rec_8_8_8_8] [Sample.line_203_0_113_1]).
  - discriminate.
  - constructor.
  - reflexivity.
  - reflexivity.
  - constructor; [reflexivity |]. constructor; [reflexivity | constructor].
Defined.

(** X14: when fewer than N lines give a record and the next line makes the
    loop return (an error line, a wrong field count, a first field that is no
    integer, a malformed range), the batch returns the records read so far
    with the error of that line, and the lines after it stay unread on the
    connection, where the next batch will find them. *)
Theorem X14_session_batch_abort {E : Externals} :
  (forall (ips : list net_IP) (c : whoisClient.Conn) (lines : list string)
          (recs : list Response) (bad : string) (rest : list string) (e : error),
      whoisClient.flushed (List.length ips) c ->
      whoisClient.incoming c = (lines ++ bad :: rest)%list ->
      List.length lines < List.length ips ->
      Forall2 (fun raw re => whoisClient.LookupIPs_line raw = inr re) lines recs ->
      whoisClient.LookupIPs_line bad = inl e ->
      fst (whoisClient.LookupIPs ips c) = (recs, Some e)
      /\ whoisClient.incoming (snd (whoisClient.LookupIPs ips c)) = rest)
  /\ (forall (asns : list Z) (c : whoisClient.Conn) (lines : list string)
          (recs : list Response) (bad : string) (rest : list string) (e : error),
      whoisClient.flushed (List.length asns) c ->
      whoisClient.incoming c = (lines ++ bad :: rest)%list ->
      List.length lines < List.length asns ->
      Forall2 (fun raw re => whoisClient.LookupASNs_line raw = inr re) lines recs ->
      whoisClient.LookupASNs_line bad = inl e ->
      fst (whoisClient.LookupASNs asns c) = (recs, Some e)
      /\ whoisClient.incoming (snd (whoisClient.LookupASNs asns c)) = rest).
Proof.
  split; intros xs c lines recs bad rest e Hf Hi Hl HF Hbad.
  - unfold whoisClient.LookupIPs.
    rewrite (batch_abort _ (map IP_String xs) c lines recs bad rest e);
      rewrite ?length_map; try assumption. split; reflexivity.
  - unfold whoisClient.LookupASNs.
    rewrite (batch_abort _ (map ASN_String xs) c lines recs bad rest e);
      rewrite ?length_map; try assumption. split; reflexivity.
Qed.

Lemma X14_session_batch_abort_witness :
  fst (whoisClient.LookupASNs (E := Sample.world) [15169%Z; 64500%Z; 64501%Z]
         (Sample.conn [Sample.line_AS15169; "64500 | US | arin | 1998-00-00";
                       Sample.line_AS64500]))
  = ([Sample.rec_AS15169], Some whoisClient.ErrUnexpectedTokens)
  /\ whoisClient.incoming
       (snd (whoisClient.LookupASNs (E := Sample.world) [15169%Z; 64500%Z; 64501%Z]
               (Sample.conn [Sample.line_AS15169; "64500 | US | arin | 1998-00-00";
                             Sample.line_AS64500])))
     = [Sample.line_AS64500].
Proof.
  apply (proj2 (@X14_session_batch_abort Sample.world) [15169%Z; 64500%Z; 64501%Z]
           (Sample.conn [Sample.line_AS15169; "64500 | US | arin | 1998-00-00";
                         Sample.line_AS64500])
           [Sample.line_AS15169] [Sample.rec_AS15169] "64500 | US | arin | 1998-00-00"
           [Sample.line_AS64500] whoisClient.ErrUnexpectedTokens).
  - constructor.
  - reflexivity.
  - cbn. lia.
  - constructor; [reflexivity | constructor].
  - reflexivity.
Defined.

(** X15: when the flush of the (k+1)-th query fails, the batch returns no
    record and the error of that flush; the first k queries have been sent,
    and no line has been read. *)
Theorem X15_session_flush_failure {E : Externals} :
  (forall (ips : list net_IP) (c : whoisClient.Conn) (k : nat) (e : error)
          (fl : list (option error)),
      whoisClient.flushes c = (repeat None k ++ Some e :: fl)%list ->
      k < List.length ips ->
      whoisClient.LookupIPs ips c
      = (([], Some e),
         whoisClient.mkConn
           (whoisClient.sent c
              ++ map (fun ip => (IP_String ip ++ whoisClient.ncEOL)%string) (firstn k ips))%list
           fl (whoisClient.incoming c)))
  /\ (forall (asns : list Z) (c : whoisClient.Conn) (k : nat) (e : error)
          (fl : list (option error)),
      whoisClient.flushes c = (repeat None k ++ Some e :: fl)%list ->
      k < List.length asns ->
      whoisClient.LookupASNs asns c
      = (([], Some e),
         whoisClient.mkConn
           (whoisClient.sent c
              ++ map (fun asn => (ASN_String asn ++ whoisClient.ncEOL)%string)
                   (firstn k asns))%list
           fl (whoisClient.incoming c))).
Proof.
  split; intros xs c k e fl Hfl Hk.
  - unfold whoisClient.LookupIPs.
    rewrite (batch_flush_error _ (map IP_String xs) c k e fl Hfl)
      by (rewrite length_map; exact Hk).
    rewrite firstn_map, map_map. reflexivity.
  - unfold whoisClient.LookupASNs.
    rewrite (batch_flush_error _ (map ASN_String xs) c k e fl Hfl)
      by (rewrite length_map; exact Hk).
    rewrite firstn_map, map_map. reflexivity.
Qed.

Lemma X15_session_flush_failure_witness :
  whoisClient.LookupIPs (E := Sample.world) [v4in6 8 8 4 4; v4in6 8 8 8 8]
    (whoisClient.mkConn [] [None; Some (Foreign "broken pipe")]
       [Sample.line_8_8_4_4; Sample.line_8_8_8_8])
  = (([], Some (Foreign "broken pipe")),
     whoisClient.mkConn ["8.8.4.4" ++ whoisClient.ncEOL] []
       [Sample.line_8_8_4_4; Sample.line_8_8_8_8]).
Proof.
  apply (proj1 (@X15_session_flush_failure Sample.world) [v4in6 8 8 4 4; v4in6 8 8 8 8]
           (whoisClient.mkConn [] [None; Some (Foreign "broken pipe")]
              [Sample.line_8_8_4_4; Sample.line_8_8_8_8])
           1 (Foreign "broken pipe") []).
  - reflexivity.
  - cbn. lia.
Defined.

(** X16: [whoisClient.LookupIP] never panics: it returns the first record
    of its one-address batch with a nil error, or no record with the error of
    the batch (nil when the connection was closed). *)
Theorem X16_whois_LookupIP_outcomes {E : Externals} (ip : net_IP) (c : whoisClient.Conn) :
  (exists re : Response,
      fst (whoisClient.LookupIPs [ip] c) = ([re], None)
      /\ fst (whoisClient.LookupIP ip c) = Done (Some re, None))
  \/ (exists err : option error,
         fst (whoisClient.LookupIPs [ip] c) = ([], err)
         /\ fst (whoisClient.LookupIP ip c) = Done (None, err)).
Proof.
  unfold whoisClient.LookupIP, whoisClient.LookupIPs. cbn [map].
  destruct (batch_single whoisClient.LookupIPs_line (IP_String ip) c) as [[re H] | [err H]];
    destruct (whoisClient.batch _ _ c) as [[resp er] c']; cbn [fst] in H;
    injection H as -> ->.
  - left. exists re. split; reflexivity.
  - right. exists err. split; reflexivity.
Qed.

(** X17: [whoisClient.LookupASN] never returns an error: either its
    one-asn batch brought a record, which it returns with a nil error, or the
    batch brought none (flush error, closed connection, error line, line that
    does not parse) and it panics. *)
Theorem X17_whois_LookupASN_outcomes {E : Externals} (asn : Z) (c : whoisClient.Conn) :
  (exists re : Response,
      fst (whoisClient.LookupASNs [asn] c) = ([re], None)
      /\ fst (whoisClient.LookupASN asn c) = Done (Some re, None))
  \/ (exists err : option error,
         fst (whoisClient.LookupASNs [asn] c) = ([], err)
         /\ fst (whoisClient.LookupASN asn c) = Panic "index out of range").
Proof.
  unfold whoisClient.LookupASN, whoisClient.LookupASNs. cbn [map].
  destruct (batch_single whoisClient.LookupASNs_line (ASN_String asn) c) as [[re H] | [err H]];
    destruct (whoisClient.batch _ _ c) as [[resp er] c']; cbn [fst] in H;
    injection H as -> ->.
  - left. exists re. split; reflexivity.
  - right. exists err. split; reflexivity.
Qed.

(** X18: a batch with no input still reads the connection: when a line is
    waiting and gives a record, the batch of zero addresses (or asns) returns
    that record first. *)
Theorem X18_session_empty_batch_reads {E : Externals} :
  (forall (c : whoisClient.Conn) (raw : string) (rest : list string) (re : Response),
      whoisClient.incoming c = raw :: rest ->
      whoisClient.LookupIPs_line raw = inr re ->
      exists more, fst (fst (whoisClient.LookupIPs [] c)) = re :: more)
  /\ (forall (c : whoisClient.Conn) (raw : string) (rest : list string) (re : Response),
      whoisClient.incoming c = raw :: rest ->
      whoisClient.LookupASNs_line raw = inr re ->
      exists more, fst (fst (whoisClient.LookupASNs [] c)) = re :: more).
Proof.
  split; intros c raw rest re Hi Hre.
  - exact (batch_empty_reads _ c raw rest re Hi Hre).
  - exact (batch_empty_reads _ c raw rest re Hi Hre).
Qed.

Lemma X18_session_empty_batch_reads_witness :
  exists more,
    fst (fst (whoisClient.LookupIPs (E := Sample.world) []
                (Sample.conn [Sample.line_8_8_4_4; Sample.line_8_8_8_8])))
    = Sample.rec_8_8_4_4 :: more.
Proof.
  apply (proj1 (@X18_session_empty_batch_reads Sample.world)
           (Sample.conn [Sample.line_8_8_4_4; Sample.line_8_8_8_8])
           Sample.line_8_8_4_4 [Sample.line_8_8_8_8] Sample.rec_8_8_4_4);
    reflexivity.
Defined.

(** X19: two batches in a row on one connection share the stream of
    lines: when the flushes succeed and the lines all give records, the
    address batch of N1 inputs takes the first N1 lines, the asn batch of N2
    inputs that follows takes the next N2, and the connection has been sent
    the N1 + N2 query lines in order. *)
Theorem X19_session_consecutive_batches {E : Externals}
  (ips : list net_IP) (asns : list Z) (c : whoisClient.Conn)
  (l1 l2 rest : list string) (recs1 recs2 : list Response) :
  ips <> [] -> asns <> [] ->
  whoisClient.flushed (List.length ips + List.length asns) c ->
  whoisClient.incoming c = (l1 ++ l2 ++ rest)%list ->
  List.length l1 = List.length ips ->
  List.length l2 = List.length asns ->
  Forall2 (fun raw re => whoisClient.LookupIPs_line raw = inr re) l1 recs1 ->
  Forall2 (fun raw re => whoisClient.LookupASNs_line raw = inr re) l2 recs2 ->
  fst (whoisClient.LookupIPs ips c) = (recs1, None)
  /\ whoisClient.LookupASNs asns (snd (whoisClient.LookupIPs ips c))
     = ((recs2, None),
        whoisClient.mkConn
          (whoisClient.sent c
             ++ map (fun ip => (IP_String ip ++ whoisClient.ncEOL)%string) ips
             ++ map (fun asn => (ASN_String asn ++ whoisClient.ncEOL)%string) asns)%list
          (skipn (List.length ips + List.length asns) (whoisClient.flushes c)) rest).
Proof.
  intros Hne1 Hne2 Hf Hi Hl1 Hl2 HF1 HF2.
  unfold whoisClient.LookupIPs.
  assert (Hq1 : map IP_String ips <> []) by (destruct ips; [contradiction | discriminate]).
  assert (Hq2 : map ASN_String asns <> []) by (destruct asns; [contradiction | discriminate]).
  rewrite (batch_full _ (map IP_String ips) c l1 recs1 (l2 ++ rest)%list Hq1);
    rewrite ?length_map; try assumption; [| exact (flushed_weaken _ _ c Hf)].
  split; [reflexivity |]. cbn [snd].
  unfold whoisClient.LookupASNs.
  rewrite (batch_full _ (map ASN_String asns) _ l2 recs2 rest Hq2);
    rewrite ?length_map; try assumption; try reflexivity.
  - cbn [whoisClient.sent whoisClient.flushes].
    rewrite !map_map, <- app_assoc, skipn_skipn, (Nat.add_comm (List.length asns)).
    reflexivity.
  - exact (flushed_skipn _ _ c _ _ Hf).
Qed.

Lemma X19_session_consecutive_batches_witness :
  fst (whoisClient.LookupIPs (E := Sample.world) [v4in6 8 8 4 4]
         (Sample.conn [Sample.line_8_8_4_4; Sample.line_AS15169]))
  = ([Sample.rec_8_8_4_4], None)
  /\ whoisClient.LookupASNs [15169%Z]
       (snd (whoisClient.LookupIPs (E := Sample.world) [v4in6 8 8 4 4]
               (Sample.conn [Sample.line_8_8_4_4; Sample.line_AS15169])))
     = (([Sample.rec_AS15169], None),
        whoisClient.mkConn
          ["8.8.4.4" ++ whoisClient.ncEOL; "AS15169" ++ whoisClient.ncEOL] [] []).
Proof.
  apply (@X19_session_consecutive_batches Sample.world [v4in6 8 8 4 4] [15169%Z]
           (Sample.conn [Sample.line_8_8_4_4; Sample.line_AS15169])
           [Sample.line_8_8_4_4] [Sample.line_AS15169] []
           [Sample.rec_8_8_4_4] [Sample.rec_AS15169]).
  - discriminate.
  - discriminate.
  - constructor.
  - reflexivity.
  - reflexivity.
  - reflexivity.
  - constructor; [reflexivity | constructor].
  - constructor; [reflexivity | constructor].
Defined.

(** X20: what a session batch returns, and what it leaves unread, depends
    on the number of its inputs only, not on the inputs: the records are
    taken from the lines in the order they arrive and are not matched against
    the addresses or asns that were asked for. *)
Theorem X20_session_results_ignore_inputs {E : Externals} :
  (forall (ips ips' : list net_IP) (c : whoisClient.Conn),
      List.length ips = List.length ips' ->
      fst (whoisClient.LookupIPs ips c) = fst (whoisClient.LookupIPs ips' c)
      /\ whoisClient.incoming (snd (whoisClient.LookupIPs ips c))
         = whoisClient.incoming (snd (whoisClient.LookupIPs ips' c)))
  /\ (forall (asns asns' : list Z) (c : whoisClient.Conn),
      List.length asns = List.length asns' ->
      fst (whoisClient.LookupASNs asns c) = fst (whoisClient.LookupASNs asns' c)
      /\ whoisClient.incoming (snd (whoisClient.LookupASNs asns c))
         = whoisClient.incoming (snd (whoisClient.LookupASNs asns' c))).
Proof.
  split; intros xs xs' c Hl.
  - unfold whoisClient.LookupIPs. apply batch_same_length. now rewrite !length_map.
  - unfold whoisClient.LookupASNs. apply batch_same_length. now rewrite !length_map.
Qed.

Lemma X20_session_results_ignore_inputs_witness :
  fst (whoisClient.LookupIPs (E := Sample.world) [v4in6 8 8 4 4]
         (Sample.conn [Sample.line_8_8_8_8]))
  = fst (whoisClient.LookupIPs (E := Sample.world) [v4in6 203 0 113 1]
           (Sample.conn [Sample.line_8_8_8_8]))
  /\ whoisClient.incoming
       (snd (whoisClient.LookupIPs (E := Sample.world) [v4in6 8 8 4 4]
               (Sample.conn [Sample.line_8_8_8_8])))
     = whoisClient.incoming
         (snd (whoisClient.LookupIPs (E := Sample.world) [v4in6 203 0 113 1]
                 (Sample.conn [Sample.line_8_8_8_8]))).
Proof.
  apply (proj1 (@X20_session_results_ignore_inputs Sample.world)
           [v4in6 8 8 4 4] [v4in6 203 0 113 1] (Sample.conn [Sample.line_8_8_8_8])).
  reflexivity.
Defined.

Section Construction.
Context {E : Externals}.
Import whoisClient.

Lemma flush_flushed (data : string) (c : Conn) :
  flushed 1 c ->
  flush data c = (None, mkConn (sent c ++ [data])%list (skipn 1 (flushes c)) (incoming c)).
Proof.
  unfold flushed, flush. intro Hf.
  destruct (flushes c) as [| [e |] fl]; cbn in *.
  - reflexivity.
  - inversion Hf as [| ? ? Habs ?]. discriminate Habs.
  - reflexivity.
Qed.

(** The first flush to come succeeds, or it fails with an error. *)
Lemma flushed_1_dec (c : Conn) :
  flushed 1 c \/ exists (e : error) (fl : list (option error)), flushes c = Some e :: fl.
Proof.
  unfold flushed. destruct (flushes c) as [| [e |] fl]; cbn [firstn].
  - left. constructor.
  - right. exists e, fl. reflexivity.
  - left. repeat constructor.
Qed.

End Construction.

(** X21: a new client and its first batch.  When the connection is opened,
    the flushes succeed and the service sends its greeting followed by lines
    that give records, [NewWhoisClient] returns a nil error and the first
    batch of N >= 1 addresses returns the records of the N lines that follow
    the greeting; the connection has been sent the handshake
    begin CR LF verbose CR LF in one piece and then the N queries. *)
Theorem X21_new_client_first_batch {E : Externals}
  (c : whoisClient.Conn) (partial : bool) (scanErr : option error) (hello : string)
  (ips : list net_IP) (lines rest : list string) (recs : list Response) :
  ips <> [] ->
  whoisClient.flushed (1 + List.length ips) c ->
  whoisClient.incoming c = hello :: (lines ++ rest)%list ->
  List.length lines = List.length ips ->
  Forall2 (fun raw re => whoisClient.LookupIPs_line raw = inr re) lines recs ->
  exists c1 : whoisClient.Conn,
    whoisClient.NewWhoisClient (inl c) partial scanErr = (Some c1, None)
    /\ whoisClient.LookupIPs ips c1
       = ((recs, None),
          whoisClient.mkConn
            (whoisClient.sent c
               ++ ("begin" ++ whoisClient.ncEOL ++ "verbose" ++ whoisClient.ncEOL)%string
               :: map (fun ip => (IP_String ip ++ whoisClient.ncEOL)%string) ips)%list
            (skipn (1 + List.length ips) (whoisClient.flushes c)) rest).
Proof.
  intros Hne Hf Hi Hl HF.
  assert (Hlines : exists l0 lines', lines = l0 :: lines').
  { destruct lines as [| l0 lines']; [| eauto].
    destruct ips; [contradiction | discriminate Hl]. }
  unfold whoisClient.NewWhoisClient.
  rewrite (flush_flushed _ c (flushed_weaken 1 _ c Hf)).
  cbn [whoisClient.incoming whoisClient.sent whoisClient.flushes]. rewrite Hi.
  cbn [tl]. eexists. split.
  { destruct Hlines as (l0 & lines' & ->). reflexivity. }
  assert (Hq : map IP_String ips <> []) by (destruct ips; [contradiction | discriminate]).
  unfold whoisClient.LookupIPs.
  rewrite (batch_full _ (map IP_String ips) _ lines recs rest Hq);
    rewrite ?length_map; try assumption; try reflexivity.
  - cbn [whoisClient.sent whoisClient.flushes].
    rewrite map_map, <- app_assoc, skipn_skipn, (Nat.add_comm (List.length ips)).
    reflexivity.
  - exact (flushed_skipn 1 _ c _ _ Hf).
Qed.

Lemma X21_new_client_first_batch_witness :
  exists c1 : whoisClient.Conn,
    whoisClient.NewWhoisClient
      (inl (Sample.conn ["Bulk mode; whois.cymru.com [2026-11-01 00:00:00 +0000]";
                         Sample.line_8_8_4_4]))
      true (Some (Foreign "connection reset by peer"))
    = (Some c1, None)
    /\ whoisClient.LookupIPs (E := Sample.world) [v4in6 8 8 4 4] c1
       = (([Sample.rec_8_8_4_4], None),
          whoisClient.mkConn
            [("begin" ++ whoisClient.ncEOL ++ "verbose" ++ whoisClient.ncEOL)%string;
             ("8.8.4.4" ++ whoisClient.ncEOL)%string]
            [] []).
Proof.
  apply (@X21_new_client_first_batch Sample.world
           (Sample.conn ["Bulk mode; whois.cymru.com [2026-11-01 00:00:00 +0000]";
                         Sample.line_8_8_4_4])
           true (Some (Foreign "connection reset by peer"))
           "Bulk mode; whois.cymru.com [2026-11-01 00:00:00 +0000]"
           [v4in6 8 8 4 4] [Sample.line_8_8_4_4] [] [Sample.rec_8_8_4_4]).
  - discriminate.
  - constructor.
  - reflexivity.
  - reflexivity.
  - constructor; [reflexivity | constructor].
Defined.

(** X22: [NewWhoisClient] returns a nil error exactly when the connection
    was opened, the flush of the handshake succeeded and the scanner, if its
    first [Scan] had to read to the end of the input (there was no line, or
    one line without its line end), stopped there without an error.  So a
    service that closes the connection without a greeting does not make the
    construction fail, and a read error behind an unterminated greeting
    does, although the greeting was read.  The client has no connection
    exactly when the dial failed. *)
Theorem X22_new_client_error (dial : whoisClient.Conn + error) (partial : bool)
  (scanErr : option error) :
  (snd (whoisClient.NewWhoisClient dial partial scanErr) = None
   <-> exists c : whoisClient.Conn,
         dial = inl c
         /\ whoisClient.flushed 1 c
         /\ (whoisClient.incoming c = [] -> scanErr = None)
         /\ (forall hello : string,
                whoisClient.incoming c = [hello] -> partial = true -> scanErr = None))
  /\ (fst (whoisClient.NewWhoisClient dial partial scanErr) = None
      <-> exists e : error, dial = inr e).
Proof.
  destruct dial as [c | e].
  - split.
    + destruct (flushed_1_dec c) as [Hf | (e & fl & Hfl)].
      * unfold whoisClient.NewWhoisClient. rewrite (flush_flushed _ c Hf).
        cbn [snd whoisClient.incoming]. split.
        -- intro H. exists c. repeat split; [exact Hf | |].
           ++ intro Hin. rewrite Hin in H. exact H.
           ++ intros hello Hin Hp. rewrite Hin, Hp in H. exact H.
        -- intros (c' & Hc & _ & H0 & H1). injection Hc as <-.
           destruct (whoisClient.incoming c) as [| hello [| l rest]]; cbn [whoisClient.sc_Err].
           ++ now apply H0.
           ++ destruct partial; [now apply (H1 hello) | reflexivity].
           ++ reflexivity.
      * unfold whoisClient.NewWhoisClient, whoisClient.flush. rewrite Hfl. cbn [snd].
        split; [discriminate |].
        intros (c' & Hc & Hf & _). injection Hc as <-.
        unfold whoisClient.flushed in Hf. rewrite Hfl in Hf.
        inversion Hf as [| ? ? Habs ?]. discriminate Habs.
    + split.
      * unfold whoisClient.NewWhoisClient.
        destruct (whoisClient.flush _ c) as [[e |] c']; discriminate.
      * intros (e & He). discriminate He.
  - cbn. split; split; try discriminate.
    + intros (c & Hc & _). discriminate Hc.
    + intros _. exists e. reflexivity.
    + reflexivity.
Qed.

Lemma new_client_reset_example :
  whoisClient.NewWhoisClient (inl (Sample.conn ["Bulk mode; whois.cymru.com"])) true
    (Some (Foreign "connection reset by peer"))
  = (Some (whoisClient.mkConn
             [("begin" ++ whoisClient.ncEOL ++ "verbose" ++ whoisClient.ncEOL)%string] [] []),
     Some (Foreign "connection reset by peer"))
  /\ whoisClient.NewWhoisClient (inl (Sample.conn ["Bulk mode; whois.cymru.com"])) false
       (Some (Foreign "connection reset by peer"))
     = (Some (whoisClient.mkConn
                [("begin" ++ whoisClient.ncEOL ++ "verbose" ++ whoisClient.ncEOL)%string] [] []),
        None)
  /\ whoisClient.NewWhoisClient (inl (Sample.conn [])) false None
     = (Some (whoisClient.mkConn
                [("begin" ++ whoisClient.ncEOL ++ "verbose" ++ whoisClient.ncEOL)%string] [] []),
        None).
Proof. repeat split. Qed.
